(** * Selection engine of the BSCSE course planner (src/main.js)

    A shallow embedding of the [CoursePlanner] class: the catalog, the
    insertion-ordered [Set] of selected course codes, the caps, the
    elective-trail lock and the search box are fields of one record, and
    every method that reads or writes them is a function on that record.
    The DOM work of [updateStats], [renderCourses] and the card builders
    writes nothing that the engine reads back, so it is left out; the one
    DOM value the engine does write, the search box, is a field. *)

From Stdlib Require Import ZArith Ascii String List.
From stdpp Require Import gmap strings list.

Local Open Scope string_scope.
Local Open Scope Z_scope.
Local Open Scope list_scope.

(** ** JavaScript values used by the planner *)

Module Js.

(** [String.prototype.includes]: substring test, true for the empty needle. *)
Fixpoint includes (s sub : string) : bool :=
  match s with
  | EmptyString => String.prefix sub EmptyString
  | String _ s' => String.prefix sub s || includes s' sub
  end.

(** [String.prototype.toLowerCase] on the ASCII range (catalog text and
    search terms are byte strings here; letters outside A-Z are kept). *)
Definition lower_ascii (a : ascii) : ascii :=
  let n := N_of_ascii a in
  if ((65 <=? n) && (n <=? 90))%N then ascii_of_N (n + 32) else a.

Fixpoint toLowerCase (s : string) : string :=
  match s with
  | EmptyString => EmptyString
  | String a s' => String (lower_ascii a) (toLowerCase s')
  end.

(** Truthiness of a string, and of a field holding [null] or a string. *)
Definition truthy_str (s : string) : bool := negb (bool_decide (s = EmptyString)).

Definition truthy (o : option string) : bool :=
  match o with
  | Some s => truthy_str s
  | None => false
  end.

(** [x || 0] on a property that is either absent or a number. *)
Definition or0 (o : option Z) : Z :=
  match o with
  | Some v => if v =? 0 then 0 else v
  | None => 0
  end.

(** [x <= 0] where [x] may be [NaN] (an absent property minus one):
    every comparison with [NaN] is false. *)
Definition le0 (o : option Z) : bool :=
  match o with
  | Some v => v <=? 0
  | None => false
  end.

(** A [Set] of strings keeps its members in insertion order. *)
Definition Set_has (x : string) (s : list string) : bool := bool_decide (x ∈ s).

Definition Set_add (x : string) (s : list string) : list string :=
  if Set_has x s then s else s ++ [x].

Definition Set_delete (x : string) (s : list string) : list string :=
  List.filter (fun y => negb (bool_decide (y = x))) s.

Definition Set_size (s : list string) : Z := Z.of_nat (length s).

End Js.

Import Js.

(** ** Data model *)

(** One record of the catalog (courses.json, not part of the sources).
    Credits are whole numbers; nothing in the engine asks them to be
    positive.  [prerequisites] and [corequisites] may be missing from a
    record, which the code guards against with [course.corequisites && ...]. *)
Record Course := mkCourse {
  code : string;
  name : string;
  credits : Z;
  type : string;
  category : string;
  prerequisites : option (list string);
  corequisites : option (list string)
}.

Record ElectiveTrailSelections := mkTrails {
  firstTrail : option string;
  thirdTrail : option string
}.

Record CoursePlanner := mkPlanner {
  courses : list Course;
  selectedCourses : list string;
  maxCredits : Z;
  maxCourses : Z;
  categoryFilter : string;
  typeFilter : string;
  electiveTrailSelections : ElectiveTrailSelections;
  searchInput : string
}.

(** The alternative groups are fixed by the constructor. *)
Definition alternativeGroups : list (list string) :=
  [ ["POL101"; "POL104"];
    ["ECO101"; "ECO104"];
    ["SOC101"; "ANT101"; "ENV203"] ].

Definition constructor (coursesData : list Course) : CoursePlanner :=
  {| courses := coursesData;
     selectedCourses := [];
     maxCredits := 14;
     maxCourses := 8;
     categoryFilter := "";
     typeFilter := "";
     electiveTrailSelections := {| firstTrail := None; thirdTrail := None |};
     searchInput := "" |}.

(** [this.courses.find(c => c.code === courseCode)] *)
Definition findCourse (cs : list Course) (courseCode : string) : option Course :=
  List.find (fun c => bool_decide (code c = courseCode)) cs.

(** The corequisite list of a course, empty when the field is missing. *)
Definition coreqs (c : Course) : list string := default [] (corequisites c).

(** ** Queries *)

Definition getSelectedCredits (p : CoursePlanner) : Z :=
  foldl (fun total cd =>
           match findCourse (courses p) cd with
           | Some course => total + credits course
           | None => total
           end) 0 (selectedCourses p).

Definition getSelectedCourseCount (p : CoursePlanner) : Z :=
  Set_size (selectedCourses p).

Definition wouldViolateAlternatives (p : CoursePlanner) (courseCode : string) : bool :=
  match List.find (fun g => bool_decide (courseCode ∈ g)) alternativeGroups with
  | Some group =>
      List.existsb (fun altCode =>
                      negb (bool_decide (altCode = courseCode))
                      && Set_has altCode (selectedCourses p)) group
  | None => false
  end.

Definition getAlternativeGroup (courseCode : string) : list string :=
  default [] (List.find (fun g => bool_decide (courseCode ∈ g)) alternativeGroups).

Definition isCourseAvailable (p : CoursePlanner) (course : Course) : bool :=
  if Set_has (code course) (selectedCourses p) then false
  else if getSelectedCredits p + credits course >? maxCredits p then false
  else if getSelectedCourseCount p + 1 >? maxCourses p then false
  else if wouldViolateAlternatives p (code course) then false
  else true.

(** ** Elective trails *)

Record SelectedElectiveTrails := mkSelectedTrails {
  trailCourses : list Course;
  trailCounts : gmap string Z;
  firstTrailCourses : Z;
  thirdTrailCourses : Z
}.

Definition isTrail (c : Course) : bool := includes (category c) "Trail".

Definition countTrails (cs : list Course) : gmap string Z :=
  foldl (fun counts course =>
           <[category course := or0 (counts !! category course) + 1]> counts)
        ∅ cs.

(** [trail ? (counts[trail] || 0) : 0].  The keys written to [counts] are
    categories that contain "Trail", and so are the keys it is read with
    in every state the planner reaches, so the properties that a fresh
    object inherits never come into play. *)
Definition lockedCount (counts : gmap string Z) (trail : option string) : Z :=
  match trail with
  | Some k => if truthy_str k then or0 (counts !! k) else 0
  | None => 0
  end.

Definition getSelectedElectiveTrails (p : CoursePlanner) : SelectedElectiveTrails :=
  let trailCourses :=
    List.filter isTrail (omap (findCourse (courses p)) (selectedCourses p)) in
  let trailCounts := countTrails trailCourses in
  {| trailCourses := trailCourses;
     trailCounts := trailCounts;
     firstTrailCourses :=
       lockedCount trailCounts (firstTrail (electiveTrailSelections p));
     thirdTrailCourses :=
       lockedCount trailCounts (thirdTrail (electiveTrailSelections p)) |}.

(** ** Mutations *)

(** The trail part of [addCourse], run before the selection changes. *)
Definition addTrail (p : CoursePlanner) (course : Course) : ElectiveTrailSelections :=
  let sel := electiveTrailSelections p in
  if isTrail course then
    let t := getSelectedElectiveTrails p in
    if (firstTrailCourses t <? 2) && negb (truthy (firstTrail sel)) then
      {| firstTrail := Some (category course); thirdTrail := thirdTrail sel |}
    else if (firstTrailCourses t >=? 2)
            && (thirdTrailCourses t =? 0)
            && negb (truthy (thirdTrail sel)) then
      {| firstTrail := firstTrail sel; thirdTrail := Some (category course) |}
    else sel
  else sel.

(** The corequisite loop of [addCourse]. *)
Definition addCorequisites (course : Course) (selected : list string) : list string :=
  match corequisites course with
  | Some l =>
      if (0 <? length l)%nat then
        foldl (fun s coreq => if negb (Set_has coreq s) then Set_add coreq s else s)
              selected l
      else selected
  | None => selected
  end.

Definition addCourse (p : CoursePlanner) (courseCode : string) : CoursePlanner :=
  match findCourse (courses p) courseCode with
  | None => p
  | Some course =>
      {| courses := courses p;
         selectedCourses :=
           Set_add courseCode (addCorequisites course (selectedCourses p));
         maxCredits := maxCredits p;
         maxCourses := maxCourses p;
         categoryFilter := categoryFilter p;
         typeFilter := typeFilter p;
         electiveTrailSelections := addTrail p course;
         searchInput := "" |}
  end.

(** The trail part of [removeCourse]: the count of the course's category,
    taken before the removal, minus one. *)
Definition removeTrail (p : CoursePlanner) (course : Course) : ElectiveTrailSelections :=
  let sel := electiveTrailSelections p in
  if isTrail course then
    let t := getSelectedElectiveTrails p in
    let remaining := (fun n => n - 1) <$> (trailCounts t !! category course) in
    let first :=
      if bool_decide (firstTrail sel = Some (category course)) then
        if le0 remaining then None else firstTrail sel
      else firstTrail sel in
    let third :=
      if bool_decide (thirdTrail sel = Some (category course)) then
        if le0 remaining then None else thirdTrail sel
      else thirdTrail sel in
    {| firstTrail := first; thirdTrail := third |}
  else sel.

(** [c && c.corequisites && c.corequisites.includes(coreq)] for the course
    that [cd] resolves to. *)
Definition listsCorequisite (cs : list Course) (cd coreq : string) : bool :=
  match findCourse cs cd with
  | Some c =>
      match corequisites c with
      | Some l => bool_decide (coreq ∈ l)
      | None => false
      end
  | None => false
  end.

(** The scan that the source calls [manuallySelected]. *)
Definition manuallySelected (cs : list Course) (courseCode coreq : string)
    (selected : list string) : bool :=
  List.existsb (fun cd =>
                  if bool_decide (cd = courseCode) then false
                  else listsCorequisite cs cd coreq) selected.

(** One round of the corequisite loop of [removeCourse]. *)
Definition dropCorequisite (cs : list Course) (courseCode : string)
    (selected : list string) (coreq : string) : list string :=
  if Set_has coreq selected then
    if negb (manuallySelected cs courseCode coreq selected)
    then Set_delete coreq selected else selected
  else selected.

(** The corequisite loop of [removeCourse]. *)
Definition removeCorequisites (cs : list Course) (courseCode : string)
    (course : Course) (selected : list string) : list string :=
  match corequisites course with
  | Some l => foldl (dropCorequisite cs courseCode) selected l
  | None => selected
  end.

Definition removeCourse (p : CoursePlanner) (courseCode : string) : CoursePlanner :=
  match findCourse (courses p) courseCode with
  | None => p
  | Some course =>
      {| courses := courses p;
         selectedCourses :=
           Set_delete courseCode
             (removeCorequisites (courses p) courseCode course (selectedCourses p));
         maxCredits := maxCredits p;
         maxCourses := maxCourses p;
         categoryFilter := categoryFilter p;
         typeFilter := typeFilter p;
         electiveTrailSelections := removeTrail p course;
         searchInput := "" |}
  end.

(** The click handler of the clear-all button. *)
Definition clearAll (p : CoursePlanner) : CoursePlanner :=
  {| courses := courses p;
     selectedCourses := [];
     maxCredits := maxCredits p;
     maxCourses := maxCourses p;
     categoryFilter := categoryFilter p;
     typeFilter := typeFilter p;
     electiveTrailSelections := {| firstTrail := None; thirdTrail := None |};
     searchInput := searchInput p |}.

(** ** Filtering *)

Definition searchPasses (searchTerm : string) (course : Course) : bool :=
  if truthy_str searchTerm then
    let term := toLowerCase searchTerm in
    if negb (includes (toLowerCase (code course)) term)
       && negb (includes (toLowerCase (name course)) term)
       && negb (includes (toLowerCase (category course)) term)
    then false else true
  else true.

Definition categoryPasses (categoryFilter : string) (course : Course) : bool :=
  if truthy_str categoryFilter && negb (bool_decide (category course = categoryFilter))
  then false else true.

Definition typePasses (typeFilter : string) (course : Course) : bool :=
  if truthy_str typeFilter && negb (bool_decide (type course = typeFilter))
  then false else true.

Definition filterCourses (p : CoursePlanner) (cs : list Course)
    (searchTerm categoryFilter typeFilter : string) : list Course :=
  let selectedElectiveTrails := getSelectedElectiveTrails p in
  List.filter
    (fun course =>
       if negb (searchPasses searchTerm course) then false
       else if negb (categoryPasses categoryFilter course) then false
       else if negb (typePasses typeFilter course) then false
       else if isTrail course
               && (truthy (firstTrail (electiveTrailSelections p))
                   && (firstTrailCourses selectedElectiveTrails <? 2)
                   && negb (bool_decide (Some (category course)
                                         = firstTrail (electiveTrailSelections p))))
       then false
       else true)
    cs.

(** ** Catalogs used in the worked scenarios *)

Definition plain (cd : string) (cr : Z) (cat : string) : Course :=
  {| code := cd; name := cd; credits := cr; type := "theory"; category := cat;
     prerequisites := Some []; corequisites := Some [] |}.

Definition withCoreqs (cd : string) (cr : Z) (cat : string) (l : list string) : Course :=
  {| code := cd; name := cd; credits := cr; type := "theory"; category := cat;
     prerequisites := Some []; corequisites := Some l |}.

(** Scenario A: the two political-science alternatives. *)
Definition POL101 : Course := plain "POL101" 3 "University Core".
Definition POL104 : Course := plain "POL104" 3 "University Core".
Definition catalogA : list Course := [POL101; POL104].

(** Scenario B with enough other courses to reach the credit cap. *)
Definition CSE470 : Course := withCoreqs "CSE470" 3 "CSE Core" ["CSE470L"].
Definition CSE470L : Course :=
  {| code := "CSE470L"; name := "CSE470L"; credits := 1; type := "lab";
     category := "CSE Core"; prerequisites := Some []; corequisites := Some [] |}.
Definition catalogB : list Course :=
  [plain "MAT120" 4 "SEPS Core"; plain "PHY107" 4 "SEPS Core";
   plain "CSE115" 3 "CSE Core"; CSE470; CSE470L].

(** Scenario C: three trails. *)
Definition AI : string := "Artificial Intelligence Trail".
Definition NET : string := "Networks Trail".
Definition SWE : string := "Software Engineering Trail".
Definition catalogC : list Course :=
  [plain "CSE440" 3 AI; plain "CSE445" 3 AI; plain "CSE465" 3 AI;
   plain "CSE338" 3 NET; plain "CSE411" 3 SWE].

(** ** Sequences of calls *)

Inductive call :=
| Add (courseCode : string)
| Remove (courseCode : string).

Definition perform (p : CoursePlanner) (c : call) : CoursePlanner :=
  match c with
  | Add cd => addCourse p cd
  | Remove cd => removeCourse p cd
  end.

Definition run (p : CoursePlanner) (cs : list call) : CoursePlanner :=
  foldl perform p cs.

(** The presentation layer offers [addCourse] only on a card of a catalog
    course for which [isCourseAvailable] was true at the last render, and
    every mutation re-renders.  [extra] is a further condition on the
    course being added, used to single out classes of sequences. *)
Definition gate (extra : CoursePlanner -> Course -> bool)
    (p : CoursePlanner) (c : call) : bool :=
  match c with
  | Add cd =>
      match findCourse (courses p) cd with
      | Some course => isCourseAvailable p course && extra p course
      | None => false
      end
  | Remove _ => true
  end.

Fixpoint gated (extra : CoursePlanner -> Course -> bool)
    (p : CoursePlanner) (cs : list call) : bool :=
  match cs with
  | [] => true
  | c :: cs' => gate extra p c && gated extra (perform p c) cs'
  end.

Definition anyCourse (_ : CoursePlanner) (_ : Course) : bool := true.

(** Every corequisite of the course is selected already. *)
Definition coreqsSelected (p : CoursePlanner) (course : Course) : bool :=
  forallb (fun d => Set_has d (selectedCourses p)) (coreqs course).

(** Every corequisite of the course is selected already or belongs to no
    alternative group. *)
Definition coreqsUngrouped (p : CoursePlanner) (course : Course) : bool :=
  forallb (fun d => Set_has d (selectedCourses p)
                    || negb (List.existsb (fun g => bool_decide (d ∈ g)) alternativeGroups))
          (coreqs course).

(** ** Properties stated over the planner *)

(** [c] is the record that its own code resolves to.  In a catalog with
    unique codes this holds of every record (see [unique_catalogCourse]). *)
Definition catalogCourse (p : CoursePlanner) (c : Course) : Prop :=
  findCourse (courses p) (code c) = Some c.


(** The planner with another selection, everything else kept. *)
Definition withSelected (p : CoursePlanner) (s : list string) : CoursePlanner :=
  {| courses := courses p;
     selectedCourses := s;
     maxCredits := maxCredits p;
     maxCourses := maxCourses p;
     categoryFilter := categoryFilter p;
     typeFilter := typeFilter p;
     electiveTrailSelections := electiveTrailSelections p;
     searchInput := searchInput p |}.

(** The credits that the selected codes resolve to, in selection order. *)
Definition resolvedCredits (p : CoursePlanner) : list Z :=
  credits <$> omap (findCourse (courses p)) (selectedCourses p).

Definition sumZ (l : list Z) : Z := foldr Z.add 0 l.

(** Both caps are respected: the catalog credits of the selected codes add
    up to at most [maxCredits], and there are at most [maxCourses] codes. *)
Definition capsHold (p : CoursePlanner) : Prop :=
  sumZ (resolvedCredits p) <= maxCredits p
  /\ Z.of_nat (length (selectedCourses p)) <= maxCourses p.

Definition altExclusive (p : CoursePlanner) : Prop :=
  forall g a b,
    g ∈ alternativeGroups -> a ∈ g -> b ∈ g ->
    a ∈ selectedCourses p -> b ∈ selectedCourses p -> a = b.

(** Some member of the group of [cd] other than [cd] itself is selected. *)
Definition alternativeSelected (p : CoursePlanner) (cd : string) : Prop :=
  exists g alt,
    g ∈ alternativeGroups /\ cd ∈ g /\ alt ∈ g /\ alt <> cd /\ alt ∈ selectedCourses p.

(** The lock only ever holds trail categories. *)
Definition trailLockOk (p : CoursePlanner) : Prop :=
  forall k,
    firstTrail (electiveTrailSelections p) = Some k
    \/ thirdTrail (electiveTrailSelections p) = Some k ->
    includes k "Trail" = true.

(** Number of selected codes that resolve to a course of category [k]. *)
Definition categoryCount (p : CoursePlanner) (k : string) : Z :=
  Z.of_nat (length (List.filter
                      (fun cd => match findCourse (courses p) cd with
                                 | Some c => bool_decide (category c = k)
                                 | None => false
                                 end)
                      (selectedCourses p))).

(** The course that [x] resolves to lists [d] among its corequisites. *)
Definition requires (p : CoursePlanner) (x d : string) : Prop :=
  exists c, findCourse (courses p) x = Some c /\ d ∈ coreqs c.

(** The cleanup rule as the specification words it: a corequisite of [c]
    is selected after [removeCourse] exactly when another course that is
    still selected lists it. *)
Definition corequisiteCleanup (p : CoursePlanner) (c : Course) (d : string) : Prop :=
  let q := removeCourse p (code c) in
  d ∈ selectedCourses q
  <-> exists x, x ∈ selectedCourses q /\ x <> code c /\ requires p x d.

(** A theory course with a lab and a tutorial, the tutorial itself tied to
    the lab. *)
Definition catalogLab : list Course :=
  [withCoreqs "CSE331" 3 "CSE Core" ["CSE331L"; "CSE331T"];
   plain "CSE331L" 1 "CSE Core";
   withCoreqs "CSE331T" 1 "CSE Core" ["CSE331L"]].

(** Two theory courses sharing one lab. *)
Definition catalogShared : list Course :=
  [withCoreqs "EEE141" 3 "SEPS Core" ["EEE141L"];
   withCoreqs "EEE111" 3 "SEPS Core" ["EEE141L"];
   plain "EEE141L" 1 "SEPS Core"].

Definition CSE331 : Course :=
  withCoreqs "CSE331" 3 "CSE Core" ["CSE331L"; "CSE331T"].

(** [CSE331] picked from the empty planner: lab and tutorial came with it. *)
Definition plannerLab : CoursePlanner := addCourse (constructor catalogLab) "CSE331".

Definition EEE111 : Course := withCoreqs "EEE111" 3 "SEPS Core" ["EEE141L"].

(** Both theory courses picked, then the shared lab removed by hand. *)
Definition plannerShared : CoursePlanner :=
  run (constructor catalogShared) [Add "EEE141"; Add "EEE111"; Remove "EEE141L"].

(** A course whose corequisite is one of the political-science alternatives. *)
Definition catalogAlt : list Course :=
  [POL101; withCoreqs "HIS103" 3 "University Core" ["POL104"]; POL104].

(** The lock after [addCourse] on a trail course, as the specification
    words it: the third slot is bound when exactly two courses of the first
    trail are selected. *)
Definition specLockAfterAdd (p : CoursePlanner) (c : Course) : ElectiveTrailSelections :=
  let sel := electiveTrailSelections p in
  match firstTrail sel with
  | None => {| firstTrail := Some (category c); thirdTrail := thirdTrail sel |}
  | Some k =>
      if bool_decide (categoryCount p k = 2 /\ thirdTrail sel = None)
      then {| firstTrail := firstTrail sel; thirdTrail := Some (category c) |}
      else sel
  end.

(** The same with "at least two" in place of "exactly two". *)
Definition lockAfterAdd (p : CoursePlanner) (c : Course) : ElectiveTrailSelections :=
  let sel := electiveTrailSelections p in
  match firstTrail sel with
  | None => {| firstTrail := Some (category c); thirdTrail := thirdTrail sel |}
  | Some k =>
      if bool_decide (2 <= categoryCount p k /\ thirdTrail sel = None)
      then {| firstTrail := firstTrail sel; thirdTrail := Some (category c) |}
      else sel
  end.

(** Three AI courses selected and the third slot free again. *)
Definition plannerTrails : CoursePlanner :=
  run (constructor catalogC)
      [Add "CSE440"; Add "CSE445"; Add "CSE338"; Add "CSE465"; Remove "CSE338"].

Definition CSE411 : Course := plain "CSE411" 3 SWE.

(** The trail gate of the filter: a trail course of another trail than the
    locked one, while fewer than two courses of the locked trail are
    selected. *)
Definition trailHidden (p : CoursePlanner) (c : Course) : Prop :=
  includes (category c) "Trail" = true
  /\ exists k, firstTrail (electiveTrailSelections p) = Some k
               /\ categoryCount p k < 2
               /\ category c <> k.

(** A catalog in which the lab that [CSE470] lists has no record. *)
Definition catalogMissing : list Course := [plain "CSE115" 3 "CSE Core"; CSE470].

(** Both theory courses of [catalogShared] picked. *)
Definition plannerBoth : CoursePlanner :=
  run (constructor catalogShared) [Add "EEE141"; Add "EEE111"].

(** One AI-trail course picked: the first trail is locked and not yet full. *)
Definition plannerLocked : CoursePlanner := addCourse (constructor catalogC) "CSE440".

(** ** Presentation logic that reads the engine *)

(** [String.prototype.trim] on the ASCII white space (tab, line feed,
    vertical tab, form feed, carriage return, space). *)
Definition isSpace (a : ascii) : bool :=
  let n := N_of_ascii a in
  (((9 <=? n) && (n <=? 13)) || (n =? 32))%N.

Fixpoint trimStart (s : string) : string :=
  match s with
  | EmptyString => EmptyString
  | String a s' => if isSpace a then trimStart s' else s
  end.

Fixpoint trimEnd (s : string) : string :=
  match s with
  | EmptyString => EmptyString
  | String a s' =>
      match trimEnd s' with
      | EmptyString => if isSpace a then EmptyString else String a EmptyString
      | r => String a r
      end
  end.

Definition trim (s : string) : string := trimEnd (trimStart s).

(** The numbers and warning flags that [updateStats] writes to the page
    (the cost is kept as a number; its locale formatting is left out). *)
Record Stats := mkStats {
  shownCredits : Z;
  shownCourses : Z;
  shownRemainingCredits : Z;
  shownRemainingCourses : Z;
  shownCost : Z;
  creditsWarning : bool;
  coursesWarning : bool
}.

Definition updateStats (p : CoursePlanner) : Stats :=
  let selectedCredits := getSelectedCredits p in
  let selectedCount := getSelectedCourseCount p in
  let remainingCredits := maxCredits p - selectedCredits in
  let remainingCourses := maxCourses p - selectedCount in
  {| shownCredits := selectedCredits;
     shownCourses := selectedCount;
     shownRemainingCredits := remainingCredits;
     shownRemainingCourses := remainingCourses;
     shownCost := selectedCredits * 6500 + 2500 + 3000 + 1500 + 2500;
     creditsWarning := remainingCredits <=? 3;
     coursesWarning := remainingCourses <=? 2 |}.

(** What a course card says about alternatives. *)
Inductive AlternativeInfo :=
| NoAlternativeInfo
| AlternativeConflict (selectedAlternatives : list string)
| AlternativeNote (alternatives : list string).

(** The decisions taken by [createCourseCard]: the markup is left out, the
    classes, the alternative notice, the tooltip and the two click handlers
    are kept.  A handler is the call it makes, if any. *)
Record CourseCard := mkCard {
  cardCourse : Course;
  cardSelected : bool;
  cardDisabled : bool;
  cardAlternatives : AlternativeInfo;
  buttonClick : option call;
  cardClick : option call;
  cardTitle : bool
}.

Definition createCourseCard (p : CoursePlanner) (course : Course)
    (isSelected : bool) : CourseCard :=
  let isAvailable := negb isSelected && isCourseAvailable p course in
  let wouldViolate := wouldViolateAlternatives p (code course) in
  let alternativeGroup := getAlternativeGroup (code course) in
  {| cardCourse := course;
     cardSelected := isSelected;
     cardDisabled := negb isAvailable && negb isSelected;
     cardAlternatives :=
       if (1 <? length alternativeGroup)%nat then
         let selectedAlternatives :=
           List.filter (fun cd => Set_has cd (selectedCourses p)
                                  && negb (bool_decide (cd = code course)))
                       alternativeGroup in
         if (0 <? length selectedAlternatives)%nat
         then AlternativeConflict selectedAlternatives
         else if negb isSelected
              then AlternativeNote
                     (List.filter (fun cd => negb (bool_decide (cd = code course)))
                                  alternativeGroup)
              else NoAlternativeInfo
       else NoAlternativeInfo;
     buttonClick :=
       if isSelected then Some (Remove (code course))
       else if isAvailable then Some (Add (code course))
       else None;
     cardClick :=
       if negb isSelected && isAvailable then Some (Add (code course)) else None;
     cardTitle := wouldViolate && negb isSelected |}.

(** The two card lists that [renderCourses] builds, and whether the trail
    progress box is put above the available courses. *)
Record Rendered := mkRendered {
  selectedCoursesList : list CourseCard;
  trailInfoShown : bool;
  availableCoursesList : list CourseCard
}.

Definition renderCourses (p : CoursePlanner) : Rendered :=
  let searchTerm := trim (searchInput p) in
  let selectedCoursesArray := omap (findCourse (courses p)) (selectedCourses p) in
  let filteredSelected := filterCourses p selectedCoursesArray searchTerm "" "" in
  let availableCourses :=
    List.filter (fun course => negb (Set_has (code course) (selectedCourses p)))
                (courses p) in
  let filteredAvailable :=
    filterCourses p availableCourses searchTerm (categoryFilter p) (typeFilter p) in
  {| selectedCoursesList := (fun course => createCourseCard p course true) <$> filteredSelected;
     trailInfoShown :=
       (0 <? length (trailCourses (getSelectedElectiveTrails p)))%nat;
     availableCoursesList :=
       (fun course => createCourseCard p course false) <$> filteredAvailable |}.

(** ** Further properties stated over the planner *)

(** Catalog credits of a code, nothing for a code without a record. *)
Definition creditOf (p : CoursePlanner) (cd : string) : Z :=
  match findCourse (courses p) cd with
  | Some c => credits c
  | None => 0
  end.

(** The lock after [removeCourse], in terms of how many selected courses
    carry the category of the removed one. *)
Definition lockAfterRemove (p : CoursePlanner) (c : Course) : ElectiveTrailSelections :=
  let sel := electiveTrailSelections p in
  if isTrail c && bool_decide (categoryCount p (category c) = 1) then
    {| firstTrail :=
         if bool_decide (firstTrail sel = Some (category c)) then None else firstTrail sel;
       thirdTrail :=
         if bool_decide (thirdTrail sel = Some (category c)) then None else thirdTrail sel |}
  else sel.

(** Each slot of the lock is null or the category, containing "Trail", of
    some catalog course. *)
Definition lockFromCatalog (p : CoursePlanner) : Prop :=
  forall k,
    firstTrail (electiveTrailSelections p) = Some k
    \/ thirdTrail (electiveTrailSelections p) = Some k ->
    includes k "Trail" = true /\ exists c, c ∈ courses p /\ category c = k.

(** [sub] occurs in [s]. *)
Definition occursIn (sub s : string) : Prop :=
  exists pre post, s = String.append pre (String.append sub post).


(** The callback of [filterCourses] as one conjunction. *)
Definition keeps (p : CoursePlanner) (searchTerm categoryFilter typeFilter : string)
    (course : Course) : bool :=
  searchPasses searchTerm course
  && categoryPasses categoryFilter course
  && typePasses typeFilter course
  && negb (isTrail course
           && (truthy (firstTrail (electiveTrailSelections p))
               && (firstTrailCourses (getSelectedElectiveTrails p) <? 2)
               && negb (bool_decide (Some (category course)
                                     = firstTrail (electiveTrailSelections p))))).

(** Scenario B with 11 credits picked. *)
Definition plannerFull : CoursePlanner :=
  run (constructor catalogB) [Add "MAT120"; Add "PHY107"; Add "CSE115"].

Definition MAT120 : Course := plain "MAT120" 4 "SEPS Core".
Definition CSE440 : Course := plain "CSE440" 3 AI.
Definition CSE445 : Course := plain "CSE445" 3 AI.

(** Scenario A with POL101 picked. *)
Definition plannerPol : CoursePlanner := addCourse (constructor catalogA) "POL101".

(** [catalogLab] with the two corequisites of the theory course listed in
    the other order. *)
Definition catalogLabSwapped : list Course :=
  [withCoreqs "CSE331" 3 "CSE Core" ["CSE331T"; "CSE331L"];
   plain "CSE331L" 1 "CSE Core";
   withCoreqs "CSE331T" 1 "CSE Core" ["CSE331L"]].

Definition plannerLabSwapped : CoursePlanner :=
  addCourse (constructor catalogLabSwapped) "CSE331".

(** * Proofs *)

(** Closed decidable facts about concrete catalogs are settled by running
    their decision procedure. *)
Ltac by_evaluation := refine (bool_decide_unpack _ _); vm_compute; exact I.

Section SetLemmas.

Implicit Types (x y : string) (s : list string).

Lemma Set_has_true x s : Set_has x s = true <-> x ∈ s.
Proof. apply bool_decide_eq_true. Qed.

Lemma Set_has_false x s : Set_has x s = false <-> x ∉ s.
Proof. apply bool_decide_eq_false. Qed.

Lemma elem_of_Set_add y x s : y ∈ Set_add x s <-> y = x \/ y ∈ s.
Proof.
  unfold Set_add. destruct (Set_has x s) eqn:E.
  - apply Set_has_true in E. split; [auto|]. intros [->|]; done.
  - rewrite elem_of_app, list_elem_of_singleton. tauto.
Qed.

Lemma elem_of_Set_delete y x s : y ∈ Set_delete x s <-> y <> x /\ y ∈ s.
Proof.
  unfold Set_delete. rewrite !list_elem_of_In, filter_In, negb_true_iff.
  rewrite bool_decide_eq_false. tauto.
Qed.

Lemma Set_add_NoDup x s : NoDup s -> NoDup (Set_add x s).
Proof.
  intros H. unfold Set_add. destruct (Set_has x s) eqn:E; [done|].
  apply Set_has_false in E. apply NoDup_app. split; [done|].
  split; [|apply NoDup_singleton].
  intros y Hy ->%list_elem_of_singleton. done.
Qed.

Lemma Set_delete_NoDup x s : NoDup s -> NoDup (Set_delete x s).
Proof.
  intros H. unfold Set_delete. induction H as [|y s Hy H IH]; simpl; [constructor|].
  destruct (negb _); [|done]. constructor; [|done].
  intros Hin. apply Hy. apply (elem_of_Set_delete y x s) in Hin. tauto.
Qed.

End SetLemmas.

Section Lookup.

Lemma findCourse_Some cs cd c :
  findCourse cs cd = Some c -> c ∈ cs /\ code c = cd.
Proof.
  intros H. apply find_some in H as [Hin Hc].
  apply bool_decide_eq_true in Hc. by rewrite list_elem_of_In.
Qed.

Lemma findCourse_None cs cd :
  findCourse cs cd = None <-> forall c, c ∈ cs -> code c <> cd.
Proof.
  split.
  - intros H c Hin. apply list_elem_of_In in Hin.
    pose proof (find_none _ _ H c Hin) as Hc.
    by apply bool_decide_eq_false in Hc.
  - intros H. destruct (findCourse cs cd) as [c|] eqn:E; [|done].
    apply findCourse_Some in E as [Hin Hc]. by destruct (H c Hin).
Qed.


End Lookup.

Section Corequisites.

Implicit Types (c : Course) (s : list string).

Lemma elem_of_addCorequisites y c s :
  y ∈ addCorequisites c s <-> y ∈ s \/ y ∈ coreqs c.
Proof.
  unfold addCorequisites, coreqs. destruct (corequisites c) as [l|]; simpl.
  - assert (forall s', y ∈ foldl (fun s0 coreq =>
               if negb (Set_has coreq s0) then Set_add coreq s0 else s0) s' l
             <-> y ∈ s' \/ y ∈ l) as Hfold.
    { induction l as [|d l IH]; intros s'; simpl.
      - rewrite elem_of_nil. tauto.
      - rewrite IH, elem_of_cons. destruct (Set_has d s') eqn:E; simpl.
        + apply Set_has_true in E. split; [tauto|]. intros [?|[->|?]]; auto.
        + rewrite elem_of_Set_add. tauto. }
    destruct l as [|d l]; [simpl; rewrite elem_of_nil; tauto|].
    apply Hfold.
  - rewrite elem_of_nil. tauto.
Qed.

Lemma elem_of_addCourse p c x :
  findCourse (courses p) (code c) = Some c ->
  x ∈ selectedCourses (addCourse p (code c))
  <-> x ∈ selectedCourses p \/ x ∈ coreqs c \/ x = code c.
Proof.
  intros H. unfold addCourse. rewrite H. simpl.
  rewrite elem_of_Set_add, elem_of_addCorequisites. tauto.
Qed.

End Corequisites.

Section Credits.

Lemma foldl_credits cs (l : list string) (acc : Z) :
  foldl (fun total cd =>
           match findCourse cs cd with
           | Some course => total + credits course
           | None => total
           end) acc l
  = acc + sumZ (credits <$> omap (findCourse cs) l).
Proof.
  revert acc. induction l as [|cd l IH]; intros acc; simpl.
  - unfold sumZ. simpl. lia.
  - rewrite IH. destruct (findCourse cs cd) as [c|]; simpl; [|done].
    change (sumZ (credits c :: ?l)) with (credits c + sumZ l).
    by rewrite Z.add_assoc.
Qed.

Lemma getSelectedCredits_resolved p :
  getSelectedCredits p = sumZ (resolvedCredits p).
Proof. unfold getSelectedCredits, resolvedCredits. by rewrite foldl_credits. Qed.

End Credits.

Section Alternatives.

Lemma find_group g cd :
  g ∈ alternativeGroups -> cd ∈ g ->
  List.find (fun g' => bool_decide (cd ∈ g')) alternativeGroups = Some g.
Proof.
  unfold alternativeGroups. intros Hg Hcd.
  repeat (apply elem_of_cons in Hg as [->|Hg]);
    [..|by apply elem_of_nil in Hg];
    repeat (apply elem_of_cons in Hcd as [->|Hcd]);
    first [reflexivity | by apply elem_of_nil in Hcd].
Qed.

Lemma wouldViolateAlternatives_true p cd :
  wouldViolateAlternatives p cd = true <-> alternativeSelected p cd.
Proof.
  unfold wouldViolateAlternatives, alternativeSelected. split.
  - destruct (List.find _ alternativeGroups) as [g|] eqn:E; [|done].
    apply find_some in E as [Hg Hcd]. apply bool_decide_eq_true in Hcd.
    intros (alt & Halt & H)%existsb_exists.
    apply andb_true_iff in H as [Hne Hsel].
    apply negb_true_iff, bool_decide_eq_false in Hne.
    apply Set_has_true in Hsel.
    apply list_elem_of_In in Hg, Halt.
    exists g, alt. repeat split; done.
  - intros (g & alt & Hg & Hcd & Halt & Hne & Hsel).
    rewrite (find_group g cd Hg Hcd). apply existsb_exists.
    exists alt. split; [by apply list_elem_of_In|].
    apply andb_true_iff. split.
    + by apply negb_true_iff, bool_decide_eq_false.
    + by apply Set_has_true.
Qed.

Lemma wouldViolateAlternatives_false p cd :
  wouldViolateAlternatives p cd = false <-> ~ alternativeSelected p cd.
Proof.
  rewrite <- wouldViolateAlternatives_true.
  destruct (wouldViolateAlternatives p cd); split; congruence.
Qed.

End Alternatives.

(** C2. [isCourseAvailable] is false exactly when the course is already
    selected, or its credits added to the credits selected so far exceed
    [maxCredits], or one more course exceeds [maxCourses], or another member
    of its alternative group is selected; in every other case it is true. *)
Theorem isCourseAvailable_false_iff (p : CoursePlanner) (c : Course) :
  let unavailable :=
    code c ∈ selectedCourses p
    \/ sumZ (resolvedCredits p) + credits c > maxCredits p
    \/ Z.of_nat (length (selectedCourses p)) + 1 > maxCourses p
    \/ alternativeSelected p (code c) in
  (isCourseAvailable p c = false <-> unavailable)
  /\ (isCourseAvailable p c = true <-> ~ unavailable).
Proof.
  intros unavailable.
  assert (isCourseAvailable p c = false <-> unavailable) as Hiff.
  { unfold unavailable, isCourseAvailable, getSelectedCourseCount, Set_size.
    rewrite <- getSelectedCredits_resolved.
    destruct (Set_has (code c) (selectedCourses p)) eqn:Hsel.
    { apply Set_has_true in Hsel. tauto. }
    apply Set_has_false in Hsel.
    destruct (Z.gtb_spec (getSelectedCredits p + credits c) (maxCredits p)) as [Hcr|Hcr].
    { split; [right; left; lia | done]. }
    destruct (Z.gtb_spec (Z.of_nat (length (selectedCourses p)) + 1) (maxCourses p))
      as [Hn|Hn].
    { split; [right; right; left; lia | done]. }
    destruct (wouldViolateAlternatives p (code c)) eqn:Halt.
    { apply wouldViolateAlternatives_true in Halt. tauto. }
    apply wouldViolateAlternatives_false in Halt.
    split; [done|]. intros [?|[?|[?|?]]]; [done | lia | lia | done]. }
  split; [exact Hiff|].
  rewrite <- Hiff. destruct (isCourseAvailable p c); split; congruence.
Qed.

(** C3. After [addCourse] on a catalog course, every code among its
    corequisites is selected, whatever the state was: the selection after
    the call is exactly the old selection, the corequisites and the course,
    with no availability, cap, count or alternative test on the way. *)
Theorem addCourse_corequisites (p : CoursePlanner) (c : Course) :
  catalogCourse p c ->
  (forall d, d ∈ coreqs c -> d ∈ selectedCourses (addCourse p (code c)))
  /\ (forall x, x ∈ selectedCourses (addCourse p (code c))
                <-> x ∈ selectedCourses p \/ x ∈ coreqs c \/ x = code c).
Proof.
  intros Hc. split.
  - intros d Hd. apply elem_of_addCourse; auto.
  - intros x. by apply elem_of_addCourse.
Qed.

(** C8. On a code that no catalog record carries, [addCourse] and
    [removeCourse] return the planner they were given: selection, trail
    lock, caps and every other field are the same. *)
Theorem unknown_code_noop (p : CoursePlanner) (cd : string) :
  (forall c, c ∈ courses p -> code c <> cd) ->
  addCourse p cd = p /\ removeCourse p cd = p.
Proof.
  intros H. apply findCourse_None in H.
  unfold addCourse, removeCourse. by rewrite H.
Qed.

Section Removal.

Variables (cs : list Course) (courseCode : string).

Implicit Types (s : list string) (d x : string).

Lemma manuallySelected_true d s :
  manuallySelected cs courseCode d s = true
  <-> exists x, x ∈ s /\ x <> courseCode /\ listsCorequisite cs x d = true.
Proof.
  unfold manuallySelected. rewrite existsb_exists. split.
  - intros (x & Hx & H). apply list_elem_of_In in Hx.
    case_bool_decide; [done|]. eauto.
  - intros (x & Hx & Hne & H). exists x. apply list_elem_of_In in Hx.
    split; [done|]. by rewrite bool_decide_eq_false_2.
Qed.

Lemma elem_of_dropCorequisite x s d :
  x ∈ dropCorequisite cs courseCode s d
  <-> x ∈ s /\ (x = d -> manuallySelected cs courseCode d s = true).
Proof.
  unfold dropCorequisite. destruct (Set_has d s) eqn:Hd.
  - destruct (manuallySelected cs courseCode d s) eqn:Hm; simpl.
    + tauto.
    + rewrite elem_of_Set_delete. split; [intros [? ?]; split; done|].
      intros [? Himp]. split; [|done]. intros ->. by specialize (Himp eq_refl).
  - apply Set_has_false in Hd. split; [|tauto].
    intros Hx. split; [done|]. intros ->. done.
Qed.

Lemma dropCorequisites_subseteq l s x :
  x ∈ foldl (dropCorequisite cs courseCode) s l -> x ∈ s.
Proof.
  revert s. induction l as [|d l IH]; intros s; simpl; [done|].
  intros H%IH. by apply elem_of_dropCorequisite in H as [? _].
Qed.

(** Only members of the list are ever dropped. *)
Lemma dropCorequisites_other l s x :
  x ∉ l -> x ∈ s -> x ∈ foldl (dropCorequisite cs courseCode) s l.
Proof.
  revert s. induction l as [|d l IH]; intros s Hx Hs; simpl; [done|].
  apply not_elem_of_cons in Hx as [Hne Hx]. apply IH; [done|].
  apply elem_of_dropCorequisite. split; [done|]. intros ->. done.
Qed.

(** A code with a supporter that survives the whole loop survives too. *)
Lemma dropCorequisites_supported l s d x :
  x ∈ foldl (dropCorequisite cs courseCode) s l ->
  x <> courseCode -> listsCorequisite cs x d = true ->
  d ∈ s -> d ∈ foldl (dropCorequisite cs courseCode) s l.
Proof.
  revert s. induction l as [|d' l IH]; intros s Hx Hne Hlists Hd; simpl in Hx |- *; [done|].
  apply IH; [done..|].
  apply elem_of_dropCorequisite. split; [done|]. intros <-.
  apply manuallySelected_true. exists x. split; [|by split].
  apply dropCorequisites_subseteq in Hx.
  by apply elem_of_dropCorequisite in Hx as [? _].
Qed.

(** A member of the list that survives had a supporter when the loop began. *)
Lemma dropCorequisites_kept l s d :
  d ∈ l -> d ∈ foldl (dropCorequisite cs courseCode) s l ->
  exists x, x ∈ s /\ x <> courseCode /\ listsCorequisite cs x d = true.
Proof.
  revert s. induction l as [|d' l IH]; intros s Hd Hkept; simpl in Hkept.
  - by apply elem_of_nil in Hd.
  - destruct (decide (d ∈ l)) as [Hl|Hl].
    + destruct (IH _ Hl Hkept) as (x & Hx & Hne & Hlists).
      exists x. split; [|by split]. by apply elem_of_dropCorequisite in Hx as [? _].
    + apply elem_of_cons in Hd as [->|Hd]; [|done].
      apply dropCorequisites_subseteq in Hkept.
      apply elem_of_dropCorequisite in Hkept as [_ Hm].
      by apply manuallySelected_true, Hm.
Qed.

End Removal.

Section RemoveCourse.

Lemma listsCorequisite_requires p x d :
  listsCorequisite (courses p) x d = true <-> requires p x d.
Proof.
  unfold listsCorequisite, requires, coreqs. split.
  - destruct (findCourse (courses p) x) as [c|]; [|done].
    destruct (corequisites c) as [l|] eqn:E; [|done].
    intros H%bool_decide_eq_true. exists c. by rewrite E.
  - intros (c & -> & H). destruct (corequisites c) as [l|]; simpl in H.
    + by apply bool_decide_eq_true.
    + by apply elem_of_nil in H.
Qed.

Lemma removeCorequisites_fold cs cd c s :
  removeCorequisites cs cd c s = foldl (dropCorequisite cs cd) s (coreqs c).
Proof. unfold removeCorequisites, coreqs. by destruct (corequisites c). Qed.

Lemma elem_of_removeCourse p c x :
  findCourse (courses p) (code c) = Some c ->
  x ∈ selectedCourses (removeCourse p (code c))
  <-> x <> code c
      /\ x ∈ foldl (dropCorequisite (courses p) (code c)) (selectedCourses p) (coreqs c).
Proof.
  intros H. unfold removeCourse. rewrite H. simpl.
  by rewrite elem_of_Set_delete, removeCorequisites_fold.
Qed.

Lemma removeCourse_subseteq p cd x :
  x ∈ selectedCourses (removeCourse p cd) -> x ∈ selectedCourses p.
Proof.
  unfold removeCourse. destruct (findCourse (courses p) cd) as [c|]; [|done].
  simpl. rewrite elem_of_Set_delete, removeCorequisites_fold.
  intros [_ H]. by apply dropCorequisites_subseteq in H.
Qed.

End RemoveCourse.

(** A condition under which the cleanup rule does hold (it is sufficient,
    not necessary).  Let [c] be a selected catalog course and [d] one of its
    corequisites that is selected before the call and that no corequisite
    of [c] lists among its own corequisites.  After [removeCourse], [d] is
    still selected exactly when another still-selected course lists [d]. *)
Theorem removeCourse_cleanup (p : CoursePlanner) (c : Course) (d : string) :
  catalogCourse p c ->
  code c ∈ selectedCourses p ->
  d ∈ coreqs c ->
  d ∈ selectedCourses p ->
  (forall e, e ∈ coreqs c -> ~ requires p e d) ->
  corequisiteCleanup p c d.
Proof.
  intros Hc _ Hd Hsel Hfree. unfold corequisiteCleanup. simpl.
  assert (d <> code c) as Hdc.
  { intros ->. apply (Hfree (code c) Hd). by exists c. }
  rewrite elem_of_removeCourse by done. split.
  - intros [_ Hkept].
    destruct (dropCorequisites_kept _ _ _ _ _ Hd Hkept) as (x & Hx & Hne & Hlists).
    apply listsCorequisite_requires in Hlists.
    exists x. split; [|by split].
    apply elem_of_removeCourse; [done|]. split; [done|].
    apply dropCorequisites_other; [|done].
    intros Hin. by apply (Hfree x).
  - intros (x & Hx & Hne & Hreq). split; [done|].
    apply elem_of_removeCourse in Hx as [_ Hx]; [|done].
    apply listsCorequisite_requires in Hreq.
    by apply (dropCorequisites_supported _ _ _ _ _ x).
Qed.

(** The cleanup rule is not kept for every selected course: with
    [CSE331], its lab and its tutorial selected, the lab is kept because
    the tutorial lists it, and the tutorial is then dropped in the same
    call, so the lab stays with nothing left that lists it. *)
Lemma removeCourse_cleanup_fails :
  ~ (forall p c d,
        catalogCourse p c -> code c ∈ selectedCourses p -> d ∈ coreqs c ->
        corequisiteCleanup p c d).
Proof.
  intros H.
  assert (corequisiteCleanup plannerLab CSE331 "CSE331L") as [Hkeep _].
  { apply H; [reflexivity | by_evaluation | by_evaluation]. }
  destruct Hkeep as (x & Hx & _ & (c' & Hfind & Hd)); [by_evaluation|].
  vm_compute in Hx. apply list_elem_of_singleton in Hx. subst x.
  vm_compute in Hfind. injection Hfind as <-.
  vm_compute in Hd. by apply elem_of_nil in Hd.
Qed.

(** The rule is not kept either when the corequisite was no longer selected:
    the shared lab was removed by hand, so removing one theory course
    leaves the other selected without the lab it lists. *)
Lemma removeCourse_cleanup_absent :
  catalogCourse plannerShared EEE111
  /\ code EEE111 ∈ selectedCourses plannerShared
  /\ "EEE141L" ∈ coreqs EEE111
  /\ ("EEE141L" ∉ selectedCourses (removeCourse plannerShared (code EEE111)))
  /\ "EEE141" ∈ selectedCourses (removeCourse plannerShared (code EEE111))
  /\ requires plannerShared "EEE141" "EEE141L".
Proof.
  split_and!; [reflexivity | by_evaluation.. |].
  exists (withCoreqs "EEE141" 3 "SEPS Core" ["EEE141L"]).
  split; [reflexivity | by_evaluation].
Qed.

(** C5. The cleanup rule of the specification (a corequisite of the removed
    course stays selected exactly when another still-selected course lists
    it), run on the code.  From the empty planner, [addCourse] on [CSE331]
    is available and selects the course with its lab and its tutorial, both
    added automatically.  [removeCourse] on [CSE331] then keeps the lab,
    because the tutorial lists it, and drops the tutorial later in the same
    loop: the lab stays selected although nothing selected lists it, and
    the rule is broken.  With the two corequisites listed in the other
    order the same two calls leave nothing selected. *)
Theorem removeCourse_orphans_corequisite :
  gated anyCourse (constructor catalogLab) [Add "CSE331"; Remove "CSE331"] = true
  /\ catalogCourse plannerLab CSE331
  /\ selectedCourses plannerLab = ["CSE331L"; "CSE331T"; "CSE331"]
  /\ "CSE331L" ∈ coreqs CSE331
  /\ selectedCourses (removeCourse plannerLab (code CSE331)) = ["CSE331L"]
  /\ (forall x, x ∈ selectedCourses (removeCourse plannerLab (code CSE331)) ->
                ~ requires plannerLab x "CSE331L")
  /\ ~ corequisiteCleanup plannerLab CSE331 "CSE331L"
  /\ selectedCourses (removeCourse plannerLabSwapped "CSE331") = [].
Proof.
  assert (selectedCourses (removeCourse plannerLab (code CSE331)) = ["CSE331L"])
    as Heq by reflexivity.
  assert (forall x, x ∈ selectedCourses (removeCourse plannerLab (code CSE331)) ->
                    ~ requires plannerLab x "CSE331L") as Hnone.
  { intros x Hx (c' & Hfind & Hd). rewrite Heq in Hx.
    apply list_elem_of_singleton in Hx. subst x.
    vm_compute in Hfind. injection Hfind as <-. by apply elem_of_nil in Hd. }
  split_and!; [reflexivity | reflexivity | reflexivity | by_evaluation
               | exact Heq | exact Hnone | | reflexivity].
  intros [Hkeep _].
  destruct Hkeep as (x & Hx & _ & Hreq); [by_evaluation|].
  by apply (Hnone x).
Qed.

(** C10. [removeCourse] on a catalog course that is not selected still
    drops every corequisite of it that no other selected course lists, and
    keeps every selected code that is not one of its corequisites (and
    selects nothing new). *)
Theorem removeCourse_unselected (p : CoursePlanner) (c : Course) :
  catalogCourse p c ->
  code c ∉ selectedCourses p ->
  (forall d, d ∈ coreqs c ->
     (forall x, x ∈ selectedCourses p -> x <> code c -> ~ requires p x d) ->
     d ∉ selectedCourses (removeCourse p (code c)))
  /\ (forall x, x ∉ coreqs c ->
        (x ∈ selectedCourses (removeCourse p (code c)) <-> x ∈ selectedCourses p)).
Proof.
  intros Hc Hnot. split.
  - intros d Hd Hnone Hin.
    apply elem_of_removeCourse in Hin as [_ Hkept]; [|done].
    destruct (dropCorequisites_kept _ _ _ _ _ Hd Hkept) as (x & Hx & Hne & Hlists).
    apply listsCorequisite_requires in Hlists. by apply (Hnone x).
  - intros x Hx. rewrite elem_of_removeCourse by done. split.
    + intros [_ H]. by apply dropCorequisites_subseteq in H.
    + intros H. split; [by intros ->|]. by apply dropCorequisites_other.
Qed.

Section Unresolved.

Lemma omap_Set_delete_unresolved cs d (s : list string) :
  findCourse cs d = None ->
  omap (findCourse cs) (Set_delete d s) = omap (findCourse cs) s.
Proof.
  intros Hd. unfold Set_delete. induction s as [|y s IH]; [done|].
  cbn [List.filter]. case_bool_decide as Hy; cbn [negb].
  - subst y. rewrite IH. cbn. by rewrite Hd.
  - cbn. by rewrite <- IH.
Qed.

End Unresolved.

(** C9. A corequisite code without a catalog record is still put into the
    selection by [addCourse].  On any state of the same catalog, the credit
    total is the sum over the selected codes that resolve, so that code adds
    nothing to it; the trail counts ignore it; adding or removing it is a
    no-op; and it never counts as a course that lists a corequisite. *)
Theorem unresolved_corequisite (p : CoursePlanner) (c : Course) (d : string) :
  catalogCourse p c ->
  d ∈ coreqs c ->
  (forall c', c' ∈ courses p -> code c' <> d) ->
  d ∈ selectedCourses (addCourse p (code c))
  /\ forall q, courses q = courses p ->
       getSelectedCredits q = sumZ (resolvedCredits q)
       /\ getSelectedCredits (withSelected q (Set_delete d (selectedCourses q)))
          = getSelectedCredits q
       /\ getSelectedElectiveTrails (withSelected q (Set_delete d (selectedCourses q)))
          = getSelectedElectiveTrails q
       /\ addCourse q d = q
       /\ removeCourse q d = q
       /\ forall x, listsCorequisite (courses q) d x = false.
Proof.
  intros Hc Hd Hnone. apply findCourse_None in Hnone. split.
  { apply elem_of_addCourse; auto. }
  intros q Hq. rewrite <- Hq in Hnone. split_and!.
  - apply getSelectedCredits_resolved.
  - rewrite !getSelectedCredits_resolved. unfold resolvedCredits. simpl.
    by rewrite omap_Set_delete_unresolved.
  - unfold getSelectedElectiveTrails. simpl.
    by rewrite omap_Set_delete_unresolved.
  - unfold addCourse. by rewrite Hnone.
  - unfold removeCourse. by rewrite Hnone.
  - intros x. unfold listsCorequisite. by rewrite Hnone.
Qed.

Section Sequences.

Variable extra : CoursePlanner -> Course -> bool.

Lemma run_app p l1 l2 : run p (l1 ++ l2) = run (run p l1) l2.
Proof. apply foldl_app. Qed.

Lemma gated_app p l1 l2 :
  gated extra p (l1 ++ l2) = gated extra p l1 && gated extra (run p l1) l2.
Proof.
  revert p. induction l1 as [|c l1 IH]; intros p; simpl; [done|].
  by rewrite IH, andb_assoc.
Qed.

Lemma gate_Add p cd :
  gate extra p (Add cd) = true ->
  exists c, findCourse (courses p) cd = Some c /\ code c = cd
            /\ isCourseAvailable p c = true /\ extra p c = true.
Proof.
  simpl. destruct (findCourse (courses p) cd) as [c|] eqn:E; [|done].
  intros [? ?]%andb_true_iff. exists c.
  by apply findCourse_Some in E as [_ ?].
Qed.

End Sequences.

Section Caps.

Lemma addCorequisites_selected c s :
  forallb (fun d => Set_has d s) (coreqs c) = true -> addCorequisites c s = s.
Proof.
  unfold addCorequisites, coreqs. destruct (corequisites c) as [l|]; [|done].
  simpl. destruct (0 <? length l)%nat; [|done].
  induction l as [|d l IH]; simpl; [done|].
  intros [Hd Hl]%andb_true_iff. rewrite Hd. simpl. by apply IH.
Qed.

(** One gated call on a course whose corequisites are selected already
    appends its code and nothing else. *)
Lemma addCourse_gated_alone p c :
  findCourse (courses p) (code c) = Some c ->
  isCourseAvailable p c = true ->
  coreqsSelected p c = true ->
  selectedCourses (addCourse p (code c)) = selectedCourses p ++ [code c].
Proof.
  intros Hc Hav Hco. unfold addCourse. rewrite Hc. simpl.
  rewrite addCorequisites_selected by done.
  unfold Set_add. unfold isCourseAvailable in Hav.
  by destruct (Set_has (code c) (selectedCourses p)).
Qed.

Lemma addCourse_gated_caps p c :
  findCourse (courses p) (code c) = Some c ->
  isCourseAvailable p c = true ->
  coreqsSelected p c = true ->
  capsHold (addCourse p (code c)).
Proof.
  intros Hc Hav Hco.
  pose proof (addCourse_gated_alone p c Hc Hav Hco) as Hsel.
  assert (courses (addCourse p (code c)) = courses p
          /\ maxCredits (addCourse p (code c)) = maxCredits p
          /\ maxCourses (addCourse p (code c)) = maxCourses p) as (Hcs & Hmc & Hmn).
  { unfold addCourse. by rewrite Hc. }
  unfold capsHold. rewrite <- getSelectedCredits_resolved.
  unfold getSelectedCredits.
  rewrite Hcs, Hmc, Hmn, Hsel, foldl_app, length_app. simpl. rewrite Hc.
  unfold isCourseAvailable, getSelectedCourseCount, Set_size in Hav.
  destruct (Set_has _ _); [done|].
  destruct (Z.gtb_spec (getSelectedCredits p + credits c) (maxCredits p)); [done|].
  destruct (Z.gtb_spec (Z.of_nat (length (selectedCourses p)) + 1) (maxCourses p));
    [done|].
  unfold getSelectedCredits in *. lia.
Qed.

End Caps.

(** C1, as amended.  Starting from the empty selection, take any sequence
    of [addCourse] calls, each made on a catalog course for which
    [isCourseAvailable] was true just before and whose corequisites were
    all selected already (in particular a course without corequisites).
    After every call the credits selected are at most [maxCredits] and the
    number of selected codes is at most [maxCourses]. *)
Theorem caps_after_gated_adds (p0 : CoursePlanner) (cds : list string) (cd : string) :
  selectedCourses p0 = [] ->
  gated coreqsSelected p0 (Add <$> (cds ++ [cd])) = true ->
  capsHold (run p0 (Add <$> (cds ++ [cd]))).
Proof.
  intros _ Hg. rewrite fmap_app in *. rewrite gated_app in Hg. rewrite run_app.
  apply andb_true_iff in Hg as [_ Hlast]. simpl in Hlast.
  rewrite andb_true_r in Hlast.
  apply gate_Add in Hlast as (c & Hc & <- & Hav & Hco).
  by apply addCourse_gated_caps.
Qed.

(** C1 fails as worded: with 11 credits selected, [CSE470] (3 credits) is
    available, and picking it brings its lab along, 15 credits in all under
    a cap of 14. *)
Lemma caps_after_gated_adds_fails :
  ~ (forall p0 cds,
        selectedCourses p0 = [] -> cds <> [] ->
        gated anyCourse p0 (Add <$> cds) = true ->
        capsHold (run p0 (Add <$> cds))).
Proof.
  intros H.
  destruct (H (constructor catalogB) ["MAT120"; "PHY107"; "CSE115"; "CSE470"])
    as [Hcredits _]; [done..|].
  vm_compute in Hcredits. by apply Hcredits.
Qed.

Section Exclusivity.

Lemma coreqsUngrouped_spec p c d g :
  coreqsUngrouped p c = true -> d ∈ coreqs c ->
  g ∈ alternativeGroups -> d ∈ g -> d ∈ selectedCourses p.
Proof.
  unfold coreqsUngrouped. rewrite forallb_forall.
  intros H Hd Hg Hdg. apply list_elem_of_In in Hd.
  specialize (H d Hd). apply orb_true_iff in H as [H|H].
  - by apply Set_has_true.
  - apply negb_true_iff in H.
    assert (List.existsb (fun g0 => bool_decide (d ∈ g0)) alternativeGroups = true)
      as Hex; [|congruence].
    apply existsb_exists. exists g. split; [by apply list_elem_of_In|].
    by apply bool_decide_eq_true.
Qed.

Lemma altExclusive_addCourse p c :
  findCourse (courses p) (code c) = Some c ->
  isCourseAvailable p c = true ->
  coreqsUngrouped p c = true ->
  altExclusive p -> altExclusive (addCourse p (code c)).
Proof.
  intros Hc Hav Hco Hex g a b Hg Ha Hb Hasel Hbsel.
  assert (~ alternativeSelected p (code c)) as Hfree.
  { apply wouldViolateAlternatives_false. unfold isCourseAvailable in Hav.
    repeat (match type of Hav with (if ?t then _ else _) = _ => destruct t end;
            try done). }
  assert (forall x, x ∈ g -> x ∈ selectedCourses (addCourse p (code c)) ->
                    x ∈ selectedCourses p \/ x = code c) as Hcases.
  { intros x Hx Hsel. apply elem_of_addCourse in Hsel as [?|[Hd|?]]; auto.
    left. by apply (coreqsUngrouped_spec p c x g). }
  destruct (Hcases a Ha Hasel) as [Ha'| ->], (Hcases b Hb Hbsel) as [Hb'| ->].
  - by apply (Hex g).
  - destruct (decide (a = code c)) as [|Hne]; [done|].
    destruct Hfree. by exists g, a.
  - destruct (decide (code c = b)) as [|Hne]; [done|].
    destruct Hfree. exists g, b. by repeat split.
  - done.
Qed.

Lemma altExclusive_removeCourse p cd :
  altExclusive p -> altExclusive (removeCourse p cd).
Proof.
  intros Hex g a b Hg Ha Hb Hasel%removeCourse_subseteq Hbsel%removeCourse_subseteq.
  by apply (Hex g).
Qed.

Lemma altExclusive_run p ops :
  altExclusive p -> gated coreqsUngrouped p ops = true ->
  altExclusive (run p ops).
Proof.
  revert p. induction ops as [|op ops IH]; intros p Hex Hg; [done|].
  simpl in Hg. apply andb_true_iff in Hg as [Hop Hops].
  apply IH; [|done]. destruct op as [cd|cd].
  - apply gate_Add in Hop as (c & Hc & <- & Hav & Hco).
    by apply altExclusive_addCourse.
  - by apply altExclusive_removeCourse.
Qed.

End Exclusivity.

(** C4, as amended.  Starting from the empty selection, take any sequence
    of [removeCourse] calls and of [addCourse] calls, each [addCourse] made
    on a catalog course for which [isCourseAvailable] was true just before
    and whose corequisites were each either selected already or outside
    every alternative group.  In the state reached, no alternative group
    has two selected members; if POL101 is selected, POL104 is not
    available; and in scenario A, POL104 is unavailable after POL101 is
    added and available again after POL101 is removed. *)
Theorem alternatives_exclusive (p0 : CoursePlanner) (ops : list call) :
  selectedCourses p0 = [] ->
  gated coreqsUngrouped p0 ops = true ->
  let q := run p0 ops in
  altExclusive q
  /\ (forall c, "POL101" ∈ selectedCourses q -> code c = "POL104" ->
                isCourseAvailable q c = false)
  /\ (let a := addCourse (constructor catalogA) "POL101" in
      selectedCourses a = ["POL101"]
      /\ isCourseAvailable a POL104 = false
      /\ isCourseAvailable (removeCourse a "POL101") POL104 = true).
Proof.
  intros Hempty Hg q. split_and!.
  - apply altExclusive_run; [|done].
    intros g a b _ _ _ Ha. rewrite Hempty in Ha. by apply elem_of_nil in Ha.
  - intros c Hsel Hc.
    assert (wouldViolateAlternatives q (code c) = true) as Hv.
    { apply wouldViolateAlternatives_true. rewrite Hc.
      exists ["POL101"; "POL104"], "POL101".
      split_and!; [by_evaluation | by_evaluation | by_evaluation | done | done]. }
    unfold isCourseAvailable. rewrite Hv.
    by repeat match goal with |- context [if ?t then _ else _] => destruct t end.
  - done.
Qed.

(** C4 fails as worded: with POL101 selected, [HIS103] is available, and
    picking it brings its corequisite POL104 along, the other member of
    POL101's group. *)
Lemma alternatives_exclusive_fails :
  ~ (forall p0 ops,
        selectedCourses p0 = [] ->
        gated anyCourse p0 ops = true ->
        altExclusive (run p0 ops)).
Proof.
  intros H.
  assert ("POL101" = "POL104") as Heq; [|done].
  apply (H (constructor catalogAlt) [Add "POL101"; Add "HIS103"] eq_refl eq_refl
           ["POL101"; "POL104"]); by_evaluation.
Qed.

Section Trails.

Lemma or0_Some v : or0 (Some v) = v.
Proof. unfold or0. destruct (Z.eqb_spec v 0); congruence. Qed.

Lemma includes_truthy k sub :
  sub <> EmptyString -> includes k sub = true -> truthy_str k = true.
Proof.
  intros Hsub H. unfold truthy_str. apply negb_true_iff, bool_decide_eq_false.
  intros ->. simpl in H. by destruct sub.
Qed.

Lemma trail_truthy k : includes k "Trail" = true -> truthy_str k = true.
Proof. by apply includes_truthy. Qed.

(** What the counting loop leaves under a key. *)
Lemma countTrails_fold (l : list Course) (m : gmap string Z) k :
  or0 (foldl (fun counts course =>
                <[category course := or0 (counts !! category course) + 1]> counts)
             m l !! k)
  = or0 (m !! k)
    + Z.of_nat (length (List.filter (fun c => bool_decide (category c = k)) l)).
Proof.
  revert m. induction l as [|c l IH]; intros m; simpl; [lia|].
  rewrite IH. case_bool_decide as Hk; simpl.
  - rewrite <- Hk, lookup_insert_eq, or0_Some. lia.
  - by rewrite lookup_insert_ne.
Qed.

Lemma countTrails_lookup l k :
  or0 (countTrails l !! k)
  = Z.of_nat (length (List.filter (fun c => bool_decide (category c = k)) l)).
Proof. unfold countTrails. by rewrite countTrails_fold, lookup_empty. Qed.

Lemma trailCourses_category cs (s : list string) k :
  includes k "Trail" = true ->
  length (List.filter (fun c => bool_decide (category c = k))
            (List.filter isTrail (omap (findCourse cs) s)))
  = length (List.filter
              (fun cd => match findCourse cs cd with
                         | Some c => bool_decide (category c = k)
                         | None => false
                         end) s).
Proof.
  intros Hk. induction s as [|cd s IH]; [done|].
  cbn. destruct (findCourse cs cd) as [c|]; [|done].
  cbn. unfold isTrail at 1. case_bool_decide as Hc.
  - rewrite Hc, Hk. cbn. rewrite bool_decide_eq_true_2 by done. cbn.
    by rewrite IH.
  - destruct (includes (category c) "Trail"); cbn; [|done].
    by rewrite bool_decide_eq_false_2.
Qed.

Lemma lockedCount_categoryCount p k :
  includes k "Trail" = true ->
  lockedCount (trailCounts (getSelectedElectiveTrails p)) (Some k)
  = categoryCount p k.
Proof.
  intros Hk. unfold lockedCount, categoryCount. rewrite (trail_truthy k Hk).
  simpl. by rewrite countTrails_lookup, trailCourses_category.
Qed.

Lemma firstTrailCourses_spec p :
  trailLockOk p ->
  firstTrailCourses (getSelectedElectiveTrails p)
  = match firstTrail (electiveTrailSelections p) with
    | Some k => categoryCount p k
    | None => 0
    end.
Proof.
  intros Hok. simpl. destruct (firstTrail (electiveTrailSelections p)) as [k|] eqn:E.
  - apply lockedCount_categoryCount, Hok. by left.
  - done.
Qed.

Lemma addTrail_ok p c :
  isTrail c = true -> trailLockOk p ->
  addTrail p c = lockAfterAdd p c.
Proof.
  intros Hc Hok. unfold addTrail, lockAfterAdd. rewrite Hc.
  rewrite firstTrailCourses_spec by done.
  change (thirdTrailCourses (getSelectedElectiveTrails p))
    with (lockedCount (trailCounts (getSelectedElectiveTrails p))
                      (thirdTrail (electiveTrailSelections p))).
  unfold trailLockOk in Hok.
  destruct (electiveTrailSelections p) as [first third]. simpl in *.
  destruct first as [k|]; simpl.
  - rewrite (trail_truthy k) by (apply Hok; by left). simpl.
    rewrite andb_false_r. destruct third as [k3|]; simpl.
    + rewrite (trail_truthy k3) by (apply Hok; by right). simpl.
      rewrite !andb_false_r. by rewrite bool_decide_eq_false_2 by (by intros [_ ?]).
    + rewrite andb_true_r. destruct (Z.geb_spec (categoryCount p k) 2).
      * by rewrite bool_decide_eq_true_2 by (split; [lia|done]).
      * by rewrite bool_decide_eq_false_2 by (intros [? _]; lia).
  - done.
Qed.

Lemma trailLockOk_constructor cs : trailLockOk (constructor cs).
Proof. intros k [H|H]; discriminate H. Qed.

Lemma trailLockOk_perform p op : trailLockOk p -> trailLockOk (perform p op).
Proof.
  intros Hok. destruct op as [cd|cd]; simpl.
  - unfold addCourse. destruct (findCourse (courses p) cd) as [c|]; [|done].
    intros k. simpl. unfold addTrail.
    destruct (isTrail c) eqn:Hc; [|apply Hok].
    repeat match goal with |- context [if ?t then _ else _] => destruct t end;
      simpl; intros [H|H]; first [by injection H as <- | apply Hok; auto].
  - unfold removeCourse. destruct (findCourse (courses p) cd) as [c|]; [|done].
    intros k. simpl. unfold removeTrail.
    destruct (isTrail c) eqn:Hc; [|apply Hok].
    repeat match goal with |- context [if ?t then _ else _] => destruct t end;
      simpl; intros [H|H]; first [discriminate H | apply Hok; auto].
Qed.

Lemma trailLockOk_run p ops : trailLockOk p -> trailLockOk (run p ops).
Proof.
  revert p. induction ops as [|op ops IH]; intros p Hok; [done|].
  simpl. by apply IH, trailLockOk_perform.
Qed.

Lemma trailLockOk_clearAll p : trailLockOk (clearAll p).
Proof. intros k [H|H]; discriminate H. Qed.

End Trails.

(** C6, as amended.  [addCourse] on a trail course sets the lock from the
    counts taken before the addition: if [firstTrail] is null it becomes
    the course's category; else if at least two courses of the first trail
    are selected and [thirdTrail] is null, [thirdTrail] becomes the course's
    category; otherwise the lock is unchanged.  In scenario C, two AI-trail
    courses and then a Networks-trail course give [firstTrail] the AI trail
    and [thirdTrail] the Networks trail. *)
Theorem addCourse_trailLock (p : CoursePlanner) (c : Course) :
  catalogCourse p c ->
  includes (category c) "Trail" = true ->
  trailLockOk p ->
  electiveTrailSelections (addCourse p (code c)) = lockAfterAdd p c
  /\ electiveTrailSelections
       (run (constructor catalogC) [Add "CSE440"; Add "CSE445"; Add "CSE338"])
     = {| firstTrail := Some AI; thirdTrail := Some NET |}.
Proof.
  intros Hc Htrail Hok. split; [|reflexivity].
  unfold addCourse. rewrite Hc. simpl. by apply addTrail_ok.
Qed.

(** C6 fails as worded: with three AI-trail courses selected and the third
    slot free, adding a Software-Engineering-trail course binds the third
    slot, where "exactly two" would leave the lock alone. *)
Lemma addCourse_trailLock_fails :
  ~ (forall p c,
        catalogCourse p c -> includes (category c) "Trail" = true -> trailLockOk p ->
        electiveTrailSelections (addCourse p (code c)) = specLockAfterAdd p c).
Proof.
  intros H.
  assert (electiveTrailSelections (addCourse plannerTrails (code CSE411))
          = specLockAfterAdd plannerTrails CSE411) as Heq.
  { apply H; [reflexivity | reflexivity |].
    apply trailLockOk_run, trailLockOk_constructor. }
  vm_compute in Heq. discriminate Heq.
Qed.

Section Filter.

Lemma filter_sublist {A} (f : A -> bool) (l : list A) : List.filter f l `sublist_of` l.
Proof.
  induction l as [|x l IH]; simpl; [constructor|].
  destruct (f x); by constructor.
Qed.

(** The last test of the filter callback is the trail gate. *)
Lemma trailGate_spec p c :
  trailLockOk p ->
  isTrail c
  && (truthy (firstTrail (electiveTrailSelections p))
      && (firstTrailCourses (getSelectedElectiveTrails p) <? 2)
      && negb (bool_decide (Some (category c) = firstTrail (electiveTrailSelections p))))
  = true
  <-> trailHidden p c.
Proof.
  intros Hok. rewrite firstTrailCourses_spec by done.
  unfold trailHidden, isTrail.
  destruct (firstTrail (electiveTrailSelections p)) as [k|] eqn:E; simpl.
  - assert (truthy_str k = true) as -> by (apply trail_truthy, Hok; by left).
    rewrite !andb_true_iff, negb_true_iff, bool_decide_eq_false, Z.ltb_lt.
    split.
    + intros (Ht & [_ Hn] & Hne). split; [done|]. exists k.
      split_and!; [done..|]. congruence.
    + intros (Ht & k' & [= <-] & Hn & Hne). split_and!; [done..|]. congruence.
  - rewrite andb_false_r. split; [done|]. by intros (_ & k & [=] & _).
Qed.

Lemma elem_of_filterCourses p cs search cf tf c :
  trailLockOk p ->
  c ∈ filterCourses p cs search cf tf
  <-> c ∈ cs /\ searchPasses search c = true /\ categoryPasses cf c = true
      /\ typePasses tf c = true /\ ~ trailHidden p c.
Proof.
  intros Hok. unfold filterCourses.
  rewrite !list_elem_of_In, filter_In, <- trailGate_spec by done.
  destruct (searchPasses search c), (categoryPasses cf c), (typePasses tf c);
    simpl; try (split; [intros [_ [=]] | intros (_ & ? & ? & ? & _); done]).
  destruct (isTrail c && _); simpl; split.
  - by intros [_ [=]].
  - intros (_ & _ & _ & _ & H). by destruct H.
  - intros [? _]. by split_and!.
  - intros [? _]. done.
Qed.

End Filter.

(** C7. Among the courses of the input that pass the search, category and
    type tests, [filterCourses] leaves out exactly those of a trail category
    other than the locked first trail while fewer than two courses of that
    trail are selected; what it returns is a subsequence of the input, in
    the input's order. *)
Theorem filterCourses_trail_gate (p : CoursePlanner) (cs : list Course)
    (searchTerm categoryFilter typeFilter : string) :
  trailLockOk p ->
  (forall c,
      c ∈ cs ->
      searchPasses searchTerm c = true ->
      categoryPasses categoryFilter c = true ->
      typePasses typeFilter c = true ->
      (c ∉ filterCourses p cs searchTerm categoryFilter typeFilter <-> trailHidden p c))
  /\ filterCourses p cs searchTerm categoryFilter typeFilter `sublist_of` cs.
Proof.
  intros Hok. split.
  - intros c Hin Hs Hc Ht. rewrite elem_of_filterCourses by done. split.
    + intros Hout. apply trailGate_spec; [done|].
      match goal with |- ?gate = true => destruct gate eqn:E end; [done|].
      destruct Hout. split_and!; [done..|].
      intros Hh. apply trailGate_spec in Hh; [congruence | done].
    + intros Hh (_ & _ & _ & _ & Hn). done.
  - apply filter_sublist.
Qed.

(** ** The selection stays a set *)

Section SetModel.

Lemma addCorequisites_NoDup c s : NoDup s -> NoDup (addCorequisites c s).
Proof.
  unfold addCorequisites. destruct (corequisites c) as [l|]; [|done].
  destruct (0 <? length l)%nat; [|done].
  revert s. induction l as [|d l IH]; intros s Hs; simpl; [done|].
  apply IH. destruct (negb _); [by apply Set_add_NoDup | done].
Qed.

Lemma removeCorequisites_NoDup cs cd c s :
  NoDup s -> NoDup (removeCorequisites cs cd c s).
Proof.
  rewrite removeCorequisites_fold.
  revert s. induction (coreqs c) as [|d l IH]; intros s Hs; simpl; [done|].
  apply IH. unfold dropCorequisite.
  destruct (Set_has d s); [|done].
  destruct (negb _); [by apply Set_delete_NoDup | done].
Qed.

Lemma selected_NoDup_perform p op :
  NoDup (selectedCourses p) -> NoDup (selectedCourses (perform p op)).
Proof.
  intros H. destruct op as [cd|cd]; simpl.
  - unfold addCourse. destruct (findCourse (courses p) cd); [|done].
    simpl. by apply Set_add_NoDup, addCorequisites_NoDup.
  - unfold removeCourse. destruct (findCourse (courses p) cd); [|done].
    simpl. by apply Set_delete_NoDup, removeCorequisites_NoDup.
Qed.

Lemma selected_NoDup_run p ops :
  NoDup (selectedCourses p) -> NoDup (selectedCourses (run p ops)).
Proof.
  revert p. induction ops as [|op ops IH]; intros p H; [done|].
  simpl. by apply IH, selected_NoDup_perform.
Qed.

End SetModel.

(** ** The theorems at work on the scenario catalogs *)

Section Instances.

Lemma plannerTrails_lockOk : trailLockOk plannerTrails.
Proof. apply trailLockOk_run, trailLockOk_constructor. Qed.

Lemma plannerLocked_lockOk : trailLockOk plannerLocked.
Proof. apply (trailLockOk_perform _ (Add "CSE440")), trailLockOk_constructor. Qed.

Lemma catalogA_unknown c : c ∈ courses (constructor catalogA) -> code c <> "XYZ000".
Proof.
  intros Hc. simpl in Hc.
  repeat (apply elem_of_cons in Hc as [->|Hc]); [done..|].
  by apply elem_of_nil in Hc.
Qed.

Lemma catalogMissing_unknown c :
  c ∈ courses (constructor catalogMissing) -> code c <> "CSE470L".
Proof.
  intros Hc. simpl in Hc.
  repeat (apply elem_of_cons in Hc as [->|Hc]); [done..|].
  by apply elem_of_nil in Hc.
Qed.

Lemma plannerBoth_lab_free e :
  e ∈ coreqs EEE111 -> ~ requires plannerBoth e "EEE141L".
Proof.
  intros He (c & Hfind & Hd). apply list_elem_of_singleton in He. subst e.
  vm_compute in Hfind. injection Hfind as <-. by apply elem_of_nil in Hd.
Qed.

End Instances.

(** Scenario B below the cap: the lab first, then [CSE470]; 8 credits. *)
Lemma caps_after_gated_adds_witness :
  selectedCourses (constructor catalogB) = []
  /\ gated coreqsSelected (constructor catalogB)
       (Add <$> (["MAT120"; "CSE470L"] ++ ["CSE470"])) = true
  /\ capsHold (run (constructor catalogB) (Add <$> (["MAT120"; "CSE470L"] ++ ["CSE470"]))).
Proof.
  split; [reflexivity|]. split; [reflexivity|].
  apply (caps_after_gated_adds (constructor catalogB) ["MAT120"; "CSE470L"] "CSE470");
    reflexivity.
Defined.

(** Scenario B: [CSE470L] is selected after [CSE470] is added. *)
Lemma addCourse_corequisites_witness :
  catalogCourse (constructor catalogB) CSE470
  /\ (forall d, d ∈ coreqs CSE470 ->
                d ∈ selectedCourses (addCourse (constructor catalogB) (code CSE470)))
  /\ (forall x, x ∈ selectedCourses (addCourse (constructor catalogB) (code CSE470))
                <-> x ∈ selectedCourses (constructor catalogB)
                    \/ x ∈ coreqs CSE470 \/ x = code CSE470).
Proof.
  split; [reflexivity|].
  apply (addCourse_corequisites (constructor catalogB) CSE470). reflexivity.
Defined.

(** Scenario A run as a sequence: POL101 in, out again, POL104 in. *)
Lemma alternatives_exclusive_witness :
  selectedCourses (constructor catalogA) = []
  /\ gated coreqsUngrouped (constructor catalogA)
       [Add "POL101"; Remove "POL101"; Add "POL104"] = true
  /\ altExclusive (run (constructor catalogA) [Add "POL101"; Remove "POL101"; Add "POL104"]).
Proof.
  split; [reflexivity|]. split; [reflexivity|].
  apply (alternatives_exclusive (constructor catalogA)
           [Add "POL101"; Remove "POL101"; Add "POL104"]); reflexivity.
Defined.

(** The shared lab stays when one of its two theory courses is removed. *)
Lemma removeCourse_cleanup_witness :
  catalogCourse plannerBoth EEE111
  /\ code EEE111 ∈ selectedCourses plannerBoth
  /\ "EEE141L" ∈ coreqs EEE111
  /\ "EEE141L" ∈ selectedCourses plannerBoth
  /\ corequisiteCleanup plannerBoth EEE111 "EEE141L".
Proof.
  assert (code EEE111 ∈ selectedCourses plannerBoth) as H1 by by_evaluation.
  assert ("EEE141L" ∈ coreqs EEE111) as H2 by by_evaluation.
  assert ("EEE141L" ∈ selectedCourses plannerBoth) as H3 by by_evaluation.
  split_and!; [reflexivity | done..|].
  exact (removeCourse_cleanup plannerBoth EEE111 "EEE141L"
           eq_refl H1 H2 H3 plannerBoth_lab_free).
Defined.

(** The third slot bound with three courses of the first trail selected. *)
Lemma addCourse_trailLock_witness :
  catalogCourse plannerTrails CSE411
  /\ includes (category CSE411) "Trail" = true
  /\ trailLockOk plannerTrails
  /\ electiveTrailSelections (addCourse plannerTrails (code CSE411))
     = {| firstTrail := Some AI; thirdTrail := Some SWE |}.
Proof.
  split_and!; [reflexivity | reflexivity | exact plannerTrails_lockOk |].
  destruct (addCourse_trailLock plannerTrails CSE411 eq_refl eq_refl plannerTrails_lockOk)
    as [-> _].
  reflexivity.
Defined.

(** With one AI-trail course selected, the other trails are hidden. *)
Lemma filterCourses_trail_gate_witness :
  trailLockOk plannerLocked
  /\ code <$> filterCourses plannerLocked catalogC "" "" "" = ["CSE440"; "CSE445"; "CSE465"]
  /\ filterCourses plannerLocked catalogC "" "" "" `sublist_of` catalogC.
Proof.
  split_and!; [exact plannerLocked_lockOk | reflexivity |].
  apply (filterCourses_trail_gate plannerLocked catalogC "" "" "" plannerLocked_lockOk).
Defined.

(** A code outside scenario A's catalog. *)
Lemma unknown_code_noop_witness :
  (forall c, c ∈ courses (constructor catalogA) -> code c <> "XYZ000")
  /\ addCourse (constructor catalogA) "XYZ000" = constructor catalogA
  /\ removeCourse (constructor catalogA) "XYZ000" = constructor catalogA.
Proof.
  split; [exact catalogA_unknown|].
  exact (unknown_code_noop (constructor catalogA) "XYZ000" catalogA_unknown).
Defined.

(** [CSE470] in a catalog without a record for its lab. *)
Lemma unresolved_corequisite_witness :
  catalogCourse (constructor catalogMissing) CSE470
  /\ "CSE470L" ∈ coreqs CSE470
  /\ "CSE470L" ∈ selectedCourses (addCourse (constructor catalogMissing) (code CSE470))
  /\ getSelectedCredits (addCourse (constructor catalogMissing) (code CSE470)) = 3.
Proof.
  assert ("CSE470L" ∈ coreqs CSE470) as Hd by by_evaluation.
  split_and!; [reflexivity | done | | reflexivity].
  exact (proj1 (unresolved_corequisite (constructor catalogMissing) CSE470 "CSE470L"
                  eq_refl Hd catalogMissing_unknown)).
Defined.

(** The lab picked on its own, then [removeCourse] on the unselected
    [CSE470]: the lab goes. *)
Lemma removeCourse_unselected_witness :
  catalogCourse (addCourse (constructor catalogB) "CSE470L") CSE470
  /\ (code CSE470 ∉ selectedCourses (addCourse (constructor catalogB) "CSE470L"))
  /\ ("CSE470L" ∉ selectedCourses
        (removeCourse (addCourse (constructor catalogB) "CSE470L") (code CSE470))).
Proof.
  assert (code CSE470 ∉ selectedCourses (addCourse (constructor catalogB) "CSE470L"))
    as Hnot by by_evaluation.
  split_and!; [reflexivity | done |].
  apply (proj1 (removeCourse_unselected
                  (addCourse (constructor catalogB) "CSE470L") CSE470 eq_refl Hnot)).
  - by_evaluation.
  - intros x Hx _ (c & Hfind & Hd).
    apply list_elem_of_singleton in Hx. subst x.
    vm_compute in Hfind. injection Hfind as <-. by apply elem_of_nil in Hd.
Defined.

(** * Further properties of the engine *)

Section Order.

Implicit Types (s : list string).

Lemma Set_add_prefix x s : s `prefix_of` Set_add x s.
Proof.
  unfold Set_add. destruct (Set_has x s); [done|]. by apply prefix_app_r.
Qed.

Lemma addCorequisites_prefix c s : s `prefix_of` addCorequisites c s.
Proof.
  unfold addCorequisites. destruct (corequisites c) as [l|]; [|done].
  destruct (0 <? length l)%nat; [|done].
  revert s. induction l as [|d l IH]; intros s; simpl; [done|].
  etrans; [|apply IH]. destruct (negb _); [apply Set_add_prefix | done].
Qed.

Lemma Set_delete_sublist x s : Set_delete x s `sublist_of` s.
Proof.
  unfold Set_delete. induction s as [|y s IH]; simpl; [constructor|].
  destruct (negb _); by constructor.
Qed.

Lemma dropCorequisites_sublist cs cd l s :
  foldl (dropCorequisite cs cd) s l `sublist_of` s.
Proof.
  revert s. induction l as [|d l IH]; intros s; simpl; [done|].
  etrans; [apply IH|]. unfold dropCorequisite.
  destruct (Set_has d s); [|done].
  destruct (negb _); [apply Set_delete_sublist | done].
Qed.

Lemma Set_delete_fresh x s : x ∉ s -> Set_delete x s = s.
Proof.
  intros H. unfold Set_delete. induction s as [|y s IH]; [done|].
  apply not_elem_of_cons in H as [Hne Hs]. simpl.
  rewrite bool_decide_eq_false_2 by done. simpl. by rewrite IH.
Qed.

Lemma Set_delete_snoc x s : x ∉ s -> Set_delete x (s ++ [x]) = s.
Proof.
  intros H. unfold Set_delete. rewrite List.filter_app. simpl.
  rewrite bool_decide_eq_true_2 by done. simpl.
  rewrite app_nil_r. by apply Set_delete_fresh.
Qed.

Lemma Set_add_selected x s : x ∈ s -> Set_add x s = s.
Proof. intros H. unfold Set_add. by rewrite (proj2 (Set_has_true x s) H). Qed.

End Order.

(** X1. [addCourse] only appends: the selection before the call is a prefix
    of the selection after it, so cards of selected courses keep their
    order; for a code with a catalog record the code is selected
    afterwards; catalog, caps and the two drop-down filters are untouched. *)
Theorem addCourse_appends (p : CoursePlanner) (cd : string) :
  selectedCourses p `prefix_of` selectedCourses (addCourse p cd)
  /\ (is_Some (findCourse (courses p) cd) -> cd ∈ selectedCourses (addCourse p cd))
  /\ courses (addCourse p cd) = courses p
  /\ maxCredits (addCourse p cd) = maxCredits p
  /\ maxCourses (addCourse p cd) = maxCourses p
  /\ categoryFilter (addCourse p cd) = categoryFilter p
  /\ typeFilter (addCourse p cd) = typeFilter p.
Proof.
  unfold addCourse. destruct (findCourse (courses p) cd) as [c|] eqn:E; simpl.
  - split_and!; try done.
    + etrans; [apply (addCorequisites_prefix c)|]. apply Set_add_prefix.
    + intros _. apply elem_of_Set_add. by left.
  - by split_and!.
Qed.

(** X2. [removeCourse] only deletes: the selection after the call is a
    subsequence of the selection before it, in the same order.  For a code
    with a catalog record the code itself is not selected afterwards, and a
    code that is neither the course nor one of its corequisites is selected
    afterwards exactly when it was before. *)
Theorem removeCourse_deletes (p : CoursePlanner) (cd : string) :
  selectedCourses (removeCourse p cd) `sublist_of` selectedCourses p
  /\ (forall c, findCourse (courses p) cd = Some c ->
        (cd ∉ selectedCourses (removeCourse p cd))
        /\ forall x, x <> cd -> x ∉ coreqs c ->
             (x ∈ selectedCourses (removeCourse p cd) <-> x ∈ selectedCourses p)).
Proof.
  split.
  - unfold removeCourse. destruct (findCourse (courses p) cd) as [c|]; [|done].
    simpl. etrans; [apply Set_delete_sublist|].
    rewrite removeCorequisites_fold. apply dropCorequisites_sublist.
  - intros c Hc. pose proof (findCourse_Some _ _ _ Hc) as [_ <-]. split.
    + rewrite elem_of_removeCourse by done. by intros [? _].
    + intros x Hne Hx. rewrite elem_of_removeCourse by done. split.
      * intros [_ H]. by apply dropCorequisites_subseteq in H.
      * intros H. split; [done|]. by apply dropCorequisites_other.
Qed.

(** X3. Calling [addCourse] twice with the same code leaves the same
    selection as calling it once. *)
Theorem addCourse_twice (p : CoursePlanner) (cd : string) :
  selectedCourses (addCourse (addCourse p cd) cd) = selectedCourses (addCourse p cd).
Proof.
  destruct (findCourse (courses p) cd) as [c|] eqn:E.
  - assert (addCourse p cd
            = {| courses := courses p;
                 selectedCourses := Set_add cd (addCorequisites c (selectedCourses p));
                 maxCredits := maxCredits p;
                 maxCourses := maxCourses p;
                 categoryFilter := categoryFilter p;
                 typeFilter := typeFilter p;
                 electiveTrailSelections := addTrail p c;
                 searchInput := "" |}) as Hq.
    { unfold addCourse. by rewrite E. }
    set (q := addCourse p cd) in *.
    unfold addCourse at 1.
    assert (courses q = courses p) as -> by by rewrite Hq.
    rewrite E. simpl.
    assert (selectedCourses q = Set_add cd (addCorequisites c (selectedCourses p)))
      as Hs by by rewrite Hq.
    rewrite addCorequisites_selected.
    + apply Set_add_selected. rewrite Hs. apply elem_of_Set_add. by left.
    + apply forallb_forall. intros d Hd%list_elem_of_In.
      apply Set_has_true. rewrite Hs.
      apply elem_of_Set_add. right. apply elem_of_addCorequisites. by right.
  - unfold addCourse. rewrite E. unfold addCourse. by rewrite E.
Qed.

(** X4. Adding a catalog course that is not selected and lists no
    corequisites, and removing it again, restores the selection, the
    catalog, the caps and the filters; when the course is not a trail course
    the trail lock is restored too.  (The search box is left empty.) *)
Theorem add_then_remove (p : CoursePlanner) (c : Course) :
  catalogCourse p c ->
  code c ∉ selectedCourses p ->
  coreqs c = [] ->
  let q := removeCourse (addCourse p (code c)) (code c) in
  selectedCourses q = selectedCourses p
  /\ courses q = courses p
  /\ maxCredits q = maxCredits p
  /\ maxCourses q = maxCourses p
  /\ categoryFilter q = categoryFilter p
  /\ typeFilter q = typeFilter p
  /\ searchInput q = ""
  /\ (isTrail c = false -> electiveTrailSelections q = electiveTrailSelections p).
Proof.
  intros Hc Hnot Hco q. subst q. unfold catalogCourse in Hc.
  assert (addCorequisites c (selectedCourses p) = selectedCourses p) as Hadd.
  { apply addCorequisites_selected. by rewrite Hco. }
  unfold removeCourse, addCourse. rewrite Hc. simpl. rewrite Hc. simpl.
  rewrite removeCorequisites_fold, Hco, Hadd. simpl.
  unfold Set_add. rewrite (proj2 (Set_has_false _ _) Hnot).
  rewrite Set_delete_snoc by done.
  split_and!; try done.
  intros Ht. unfold removeTrail, addTrail. simpl. by rewrite Ht.
Qed.

Section Overshoot.

Variable p : CoursePlanner.

Hypothesis credits_nonneg : forall c, c ∈ courses p -> 0 <= credits c.

(** Credits that a list of codes resolves to. *)
Let total (s : list string) : Z := sumZ (credits <$> omap (findCourse (courses p)) s).

Lemma creditOf_nonneg cd : 0 <= creditOf p cd.
Proof.
  unfold creditOf. destruct (findCourse (courses p) cd) as [c|] eqn:E; [|done].
  apply credits_nonneg. by apply findCourse_Some in E as [? _].
Qed.

Lemma sumZ_cons z (l : list Z) : sumZ (z :: l) = z + sumZ l.
Proof. done. Qed.

Lemma sumZ_app (l1 l2 : list Z) : sumZ (l1 ++ l2) = sumZ l1 + sumZ l2.
Proof.
  induction l1 as [|z l1 IH]; [done|].
  rewrite <- app_comm_cons, !sumZ_cons, IH. lia.
Qed.

Lemma total_snoc s x : total (s ++ [x]) = total s + creditOf p x.
Proof.
  unfold total, creditOf. rewrite omap_app, fmap_app, sumZ_app. f_equal.
  cbn. destruct (findCourse (courses p) x) as [c|]; [|done].
  apply Z.add_0_r.
Qed.

Lemma total_Set_add s x : total (Set_add x s) <= total s + creditOf p x.
Proof.
  unfold Set_add. destruct (Set_has x s).
  - pose proof (creditOf_nonneg x). lia.
  - rewrite total_snoc. lia.
Qed.

Lemma total_addCorequisites c s :
  total (addCorequisites c s) <= total s + sumZ (creditOf p <$> coreqs c).
Proof.
  unfold addCorequisites, coreqs. destruct (corequisites c) as [l|]; simpl.
  - assert (forall s', total (foldl (fun s0 coreq =>
               if negb (Set_has coreq s0) then Set_add coreq s0 else s0) s' l)
              <= total s' + sumZ (creditOf p <$> l)) as Hfold.
    { induction l as [|d l IH]; intros s'; cbn [foldl].
      - unfold sumZ. simpl. lia.
      - rewrite fmap_cons, sumZ_cons. etrans; [apply IH|].
        pose proof (creditOf_nonneg d).
        destruct (negb _); [pose proof (total_Set_add s' d)|]; lia. }
    destruct (0 <? length l)%nat; [apply Hfold|].
    assert (0 <= sumZ (creditOf p <$> l)); [|lia].
    clear Hfold. induction l as [|d l IH]; [done|].
    rewrite fmap_cons, sumZ_cons.
    pose proof (creditOf_nonneg d). lia.
  - unfold sumZ. simpl. lia.
Qed.

Lemma length_Set_add s x : (length (Set_add x s) <= length s + 1)%nat.
Proof.
  unfold Set_add. destruct (Set_has x s); [lia|]. rewrite length_app. simpl. lia.
Qed.

End Overshoot.

Section OvershootCount.

Lemma length_Set_add_fresh s x : x ∉ s -> length (Set_add x s) = S (length s).
Proof.
  intros H. unfold Set_add. rewrite (proj2 (Set_has_false _ _) H).
  rewrite length_app. simpl. lia.
Qed.

Lemma length_addCorequisites c s :
  (length (addCorequisites c s) <= length s + length (coreqs c))%nat.
Proof.
  unfold addCorequisites, coreqs. destruct (corequisites c) as [l|]; simpl; [|lia].
  destruct (0 <? length l)%nat; [|lia].
  revert s. induction l as [|d l IH]; intros s; simpl; [lia|].
  etrans; [apply IH|].
  destruct (negb _); [pose proof (length_Set_add s d)|]; lia.
Qed.

End OvershootCount.

(** X5. How far one call can overshoot the caps.  After [addCourse] on an
    available catalog course, the number of selected codes exceeds
    [maxCourses] by at most the number of corequisites the course lists;
    and when no catalog credit is negative, the credits selected exceed
    [maxCredits] by at most the catalog credits of those corequisites. *)
Theorem addCourse_overshoot (p : CoursePlanner) (c : Course) :
  catalogCourse p c ->
  isCourseAvailable p c = true ->
  let q := addCourse p (code c) in
  Z.of_nat (length (selectedCourses q))
    <= maxCourses p + Z.of_nat (length (coreqs c))
  /\ ((forall c', c' ∈ courses p -> 0 <= credits c') ->
      sumZ (resolvedCredits q) <= maxCredits p + sumZ (creditOf p <$> coreqs c)).
Proof.
  intros Hc Hav q. subst q. unfold catalogCourse in Hc.
  unfold isCourseAvailable, getSelectedCourseCount, Set_size in Hav.
  destruct (Set_has (code c) (selectedCourses p)) eqn:Hsel; [done|].
  destruct (Z.gtb_spec (getSelectedCredits p + credits c) (maxCredits p)) as [|Hcr];
    [done|].
  destruct (Z.gtb_spec (Z.of_nat (length (selectedCourses p)) + 1) (maxCourses p))
    as [|Hn]; [done|].
  clear Hav. rewrite getSelectedCredits_resolved in Hcr.
  unfold addCourse. rewrite Hc. unfold resolvedCredits. simpl. split.
  - pose proof (length_Set_add (addCorequisites c (selectedCourses p)) (code c)).
    pose proof (length_addCorequisites c (selectedCourses p)). lia.
  - intros Hnn.
    pose proof (total_Set_add p Hnn (addCorequisites c (selectedCourses p)) (code c))
      as H1.
    pose proof (total_addCorequisites p Hnn c (selectedCourses p)) as H2.
    unfold creditOf in H1 at 1. rewrite Hc in H1.
    unfold resolvedCredits in Hcr. cbv beta in H1, H2. lia.
Qed.

Section Blocking.

Lemma wouldViolate_unavailable p c :
  wouldViolateAlternatives p (code c) = true -> isCourseAvailable p c = false.
Proof.
  intros Hv. unfold isCourseAvailable. rewrite Hv.
  by repeat match goal with |- context [if ?t then _ else _] => destruct t end.
Qed.

Lemma getAlternativeGroup_elem a b :
  a ∈ getAlternativeGroup b ->
  exists g, g ∈ alternativeGroups /\ a ∈ g /\ b ∈ g /\ getAlternativeGroup b = g.
Proof.
  unfold getAlternativeGroup.
  destruct (List.find _ alternativeGroups) as [g|] eqn:E; simpl.
  - intros Ha. apply find_some in E as [Hg Hb].
    apply bool_decide_eq_true in Hb. apply list_elem_of_In in Hg. by exists g.
  - intros Ha. by apply elem_of_nil in Ha.
Qed.

End Blocking.

(** X6. The alternative groups block both ways.  If [a] is in the group
    that [getAlternativeGroup] returns for another code [b], then [b] is in
    the group returned for [a], the two groups are the same, and while
    either code is selected no course carrying the other code is
    available. *)
Theorem alternatives_block_both_ways (p : CoursePlanner) (a b : string) :
  a ∈ getAlternativeGroup b ->
  a <> b ->
  b ∈ getAlternativeGroup a
  /\ getAlternativeGroup a = getAlternativeGroup b
  /\ (a ∈ selectedCourses p -> forall c, code c = b -> isCourseAvailable p c = false)
  /\ (b ∈ selectedCourses p -> forall c, code c = a -> isCourseAvailable p c = false).
Proof.
  intros Ha Hne. apply getAlternativeGroup_elem in Ha as (g & Hg & Ha & Hb & Hgb).
  assert (getAlternativeGroup a = g) as Hga.
  { unfold getAlternativeGroup. by rewrite (find_group g a Hg Ha). }
  rewrite Hga, Hgb. split_and!; [done | done | |].
  - intros Hsel c Hc. apply wouldViolate_unavailable, wouldViolateAlternatives_true.
    rewrite Hc. by exists g, a.
  - intros Hsel c Hc. apply wouldViolate_unavailable, wouldViolateAlternatives_true.
    rewrite Hc. exists g, b. by split_and!.
Qed.

Section TrailCounts.

Lemma countTrails_snoc l c :
  countTrails (l ++ [c])
  = <[category c := or0 (countTrails l !! category c) + 1]> (countTrails l).
Proof. unfold countTrails. by rewrite foldl_app. Qed.

(** The counting loop records a category exactly when some course carries
    it, with the number of such courses. *)
Lemma countTrails_exact l k :
  countTrails l !! k
  = let n := Z.of_nat (length (List.filter (fun c => bool_decide (category c = k)) l)) in
    if bool_decide (n = 0) then None else Some n.
Proof.
  induction l as [|c l IH] using rev_ind; [done|].
  rewrite countTrails_snoc, List.filter_app, length_app. simpl.
  destruct (decide (category c = k)) as [Hk|Hk].
  - subst k. rewrite lookup_insert_eq, countTrails_lookup.
    rewrite (bool_decide_eq_true_2 (category c = category c)) by done. simpl.
    rewrite bool_decide_eq_false_2 by lia. f_equal. lia.
  - rewrite lookup_insert_ne by done.
    rewrite (bool_decide_eq_false_2 (category c = k)) by done. simpl.
    rewrite Nat.add_0_r. apply IH.
Qed.

Lemma trailCounts_category p k :
  includes k "Trail" = true ->
  trailCounts (getSelectedElectiveTrails p) !! k
  = if bool_decide (categoryCount p k = 0) then None else Some (categoryCount p k).
Proof.
  intros Hk. simpl. rewrite countTrails_exact. simpl.
  unfold categoryCount. by rewrite trailCourses_category.
Qed.

End TrailCounts.

(** X7. The trail lock after [removeCourse] on a catalog course.  When the
    course is a trail course and exactly one selected course carries its
    category, every slot of the lock that holds that category becomes
    null; in every other case (not a trail course, two or more selected
    courses of the category, or none at all) the lock is unchanged. *)
Theorem removeCourse_trailLock (p : CoursePlanner) (c : Course) :
  catalogCourse p c ->
  electiveTrailSelections (removeCourse p (code c)) = lockAfterRemove p c.
Proof.
  intros Hc. unfold removeCourse. rewrite Hc. cbn [electiveTrailSelections].
  unfold removeTrail, lockAfterRemove.
  destruct (isTrail c) eqn:Ht; [|done]. cbn [andb].
  rewrite trailCounts_category by done.
  assert (0 <= categoryCount p (category c)) as Hnn by (unfold categoryCount; lia).
  destruct (electiveTrailSelections p) as [first third]. simpl.
  destruct (decide (categoryCount p (category c) = 0)) as [H0|H0].
  - rewrite (bool_decide_eq_true_2 _ H0). simpl.
    rewrite (bool_decide_eq_false_2 (categoryCount p (category c) = 1)) by lia.
    by repeat case_bool_decide.
  - rewrite (bool_decide_eq_false_2 _ H0). simpl.
    destruct (Z.leb_spec (categoryCount p (category c) - 1) 0).
    + by rewrite (bool_decide_eq_true_2 (categoryCount p (category c) = 1)) by lia.
    + rewrite (bool_decide_eq_false_2 (categoryCount p (category c) = 1)) by lia.
      by repeat case_bool_decide.
Qed.

Section LockOrigin.

Lemma lockFromCatalog_perform p op :
  lockFromCatalog p -> lockFromCatalog (perform p op)
                       /\ courses (perform p op) = courses p.
Proof.
  intros Hok. destruct op as [cd|cd]; simpl.
  - unfold addCourse. destruct (findCourse (courses p) cd) as [c|] eqn:E; [|done].
    split; [|done]. apply findCourse_Some in E as [Hin _].
    intros k. simpl. unfold addTrail.
    destruct (isTrail c) eqn:Hc; [|apply Hok].
    repeat match goal with |- context [if ?t then _ else _] => destruct t end;
      simpl; intros [H|H];
      first [injection H as <-; split; [done | by exists c] | apply Hok; auto].
  - unfold removeCourse. destruct (findCourse (courses p) cd) as [c|]; [|done].
    split; [|done]. intros k. simpl. unfold removeTrail.
    destruct (isTrail c) eqn:Hc; [|apply Hok].
    repeat match goal with |- context [if ?t then _ else _] => destruct t end;
      simpl; intros [H|H]; first [discriminate H | apply Hok; auto].
Qed.

End LockOrigin.

(** X8. Whatever sequence of [addCourse] and [removeCourse] calls follows
    the constructor, the catalog is the one the constructor was given and
    each slot of the trail lock is null or the category of a catalog course
    that contains "Trail". *)
Theorem lock_from_catalog (cs : list Course) (ops : list call) :
  courses (run (constructor cs) ops) = cs
  /\ lockFromCatalog (run (constructor cs) ops).
Proof.
  assert (forall p, lockFromCatalog p ->
            courses (run p ops) = courses p /\ lockFromCatalog (run p ops)) as H.
  { induction ops as [|op ops IH]; intros p Hp; [done|].
    simpl. destruct (lockFromCatalog_perform p op Hp) as [Hq Hcs].
    destruct (IH _ Hq) as [Hcs' Hq']. split; [congruence | done]. }
  apply (H (constructor cs)). intros k [Hk|Hk]; discriminate Hk.
Qed.

Section EmptySelection.

Lemma empty_no_conflict p cd :
  selectedCourses p = [] -> wouldViolateAlternatives p cd = false.
Proof.
  intros He. apply wouldViolateAlternatives_false.
  intros (g & alt & _ & _ & _ & _ & Hsel). rewrite He in Hsel.
  by apply elem_of_nil in Hsel.
Qed.

End EmptySelection.

(** X9. After the clear-all button the selection is empty and both slots of
    the trail lock are null, caps and catalog are kept, and a course is
    available exactly when its credits fit [maxCredits] and [maxCourses]
    admits one course. *)
Theorem clearAll_available (p : CoursePlanner) (c : Course) :
  selectedCourses (clearAll p) = []
  /\ electiveTrailSelections (clearAll p) = {| firstTrail := None; thirdTrail := None |}
  /\ courses (clearAll p) = courses p
  /\ maxCredits (clearAll p) = maxCredits p
  /\ maxCourses (clearAll p) = maxCourses p
  /\ (isCourseAvailable (clearAll p) c = true
      <-> credits c <= maxCredits p /\ 1 <= maxCourses p).
Proof.
  split_and!; try done.
  unfold isCourseAvailable. rewrite empty_no_conflict by done.
  assert (Set_has (code c) (selectedCourses (clearAll p)) = false) as ->
    by apply Set_has_false, not_elem_of_nil.
  unfold getSelectedCredits, getSelectedCourseCount, Set_size. simpl.
  change (0 + credits c) with (credits c). change (Z.of_nat 0 + 1) with 1.
  destruct (Z.gtb_spec (credits c) (maxCredits p)),
           (Z.gtb_spec 1 (maxCourses p)); intuition (try done; lia).
Qed.

(** * Properties of the cards and lists *)

Section Cards.

Lemma group_size g : g ∈ alternativeGroups -> (1 <? length g)%nat = true.
Proof.
  unfold alternativeGroups. intros Hg.
  repeat (apply elem_of_cons in Hg as [->|Hg]); [done..|].
  by apply elem_of_nil in Hg.
Qed.

Lemma filter_nonempty_existsb {A} (f : A -> bool) (l : list A) :
  (0 <? length (List.filter f l))%nat = List.existsb f l.
Proof.
  induction l as [|x l IH]; [done|]. simpl. by destruct (f x).
Qed.

Lemma existsb_ext {A} (f g : A -> bool) (l : list A) :
  (forall x, f x = g x) -> List.existsb f l = List.existsb g l.
Proof. intros H. induction l as [|x l IH]; [done|]. simpl. by rewrite H, IH. Qed.

End Cards.

(** X10. On a course card the alternative-conflict notice appears exactly
    when [wouldViolateAlternatives] holds for the course, and it names the
    other members of the course's group that are selected.  A card is
    disabled exactly when it is not a selected card and the course is not
    available, and every card carrying the conflict tooltip is disabled. *)
Theorem card_conflict_notice (p : CoursePlanner) (c : Course) (isSelected : bool) :
  let card := createCourseCard p c isSelected in
  ((exists l, cardAlternatives card = AlternativeConflict l)
   <-> wouldViolateAlternatives p (code c) = true)
  /\ (forall l, cardAlternatives card = AlternativeConflict l ->
        forall x, x ∈ l <-> x ∈ getAlternativeGroup (code c)
                            /\ x <> code c /\ x ∈ selectedCourses p)
  /\ (cardDisabled card = true <-> isSelected = false /\ isCourseAvailable p c = false)
  /\ (cardTitle card = true -> cardDisabled card = true).
Proof.
  intros card. subst card. unfold createCourseCard. cbn [cardAlternatives cardDisabled cardTitle].
  split_and!.
  - unfold wouldViolateAlternatives, getAlternativeGroup.
    destruct (List.find _ alternativeGroups) as [g|] eqn:E; simpl.
    + apply find_some in E as [Hg%list_elem_of_In _].
      rewrite (group_size g Hg), filter_nonempty_existsb.
      rewrite (existsb_ext _ (fun altCode => negb (bool_decide (altCode = code c))
                                             && Set_has altCode (selectedCourses p)))
        by (intros x; apply andb_comm).
      destruct (List.existsb _ g).
      * split; [done|]. intros _. by eexists.
      * split; [|done]. intros [l Hl]. by destruct isSelected.
    + split; [|done]. by intros [l [=]].
  - intros l Hl x.
    destruct (1 <? length (getAlternativeGroup (code c)))%nat; [|done].
    destruct (0 <? length _)%nat; [|by destruct isSelected].
    injection Hl as <-.
    rewrite (list_elem_of_In (List.filter _ _) x), filter_In.
    rewrite andb_true_iff, negb_true_iff, bool_decide_eq_false, Set_has_true.
    rewrite <- list_elem_of_In. tauto.
  - destruct isSelected, (isCourseAvailable p c); simpl; intuition done.
  - intros [Hv Hs]%andb_true_iff.
    rewrite (wouldViolate_unavailable p c Hv).
    by destruct isSelected.
Qed.

Section RenderedLists.

Lemma elem_of_available p card :
  card ∈ availableCoursesList (renderCourses p) ->
  exists c, card = createCourseCard p c false
            /\ c ∈ courses p /\ (code c ∉ selectedCourses p)
            /\ c ∈ filterCourses p
                     (List.filter (fun course =>
                                     negb (Set_has (code course) (selectedCourses p)))
                                  (courses p))
                     (trim (searchInput p)) (categoryFilter p) (typeFilter p).
Proof.
  unfold renderCourses. cbn [availableCoursesList].
  intros (c & -> & Hc)%list_elem_of_fmap. exists c. split; [done|].
  split_and!; [| |done].
  - unfold filterCourses in Hc.
    apply list_elem_of_In, filter_In in Hc as [Hc _].
    apply filter_In in Hc as [Hc _]. by apply list_elem_of_In.
  - unfold filterCourses in Hc.
    apply list_elem_of_In, filter_In in Hc as [Hc _].
    apply filter_In in Hc as [_ Hc]. by apply negb_true_iff, Set_has_false in Hc.
Qed.


End RenderedLists.


(** X12. While the first trail is locked and fewer than two of its courses
    are selected, the available list holds no trail course of another
    category; and no list ever holds a card for a course that fails the
    search, category or type test it was rendered with. *)
Theorem available_list_respects_lock (p : CoursePlanner) (card : CourseCard) :
  trailLockOk p ->
  card ∈ availableCoursesList (renderCourses p) ->
  ~ trailHidden p (cardCourse card)
  /\ searchPasses (trim (searchInput p)) (cardCourse card) = true
  /\ categoryPasses (categoryFilter p) (cardCourse card) = true
  /\ typePasses (typeFilter p) (cardCourse card) = true.
Proof.
  intros Hok (c & -> & _ & _ & Hc)%elem_of_available.
  apply elem_of_filterCourses in Hc as (_ & ? & ? & ? & ?); done.
Qed.

Section Search.

Lemma prefix_occurs sub s :
  String.prefix sub s = true <-> exists post, s = String.append sub post.
Proof.
  revert s. induction sub as [|a sub IH]; intros s.
  - split; [|by destruct s]. intros _. by exists s.
  - destruct s as [|b s]; simpl.
    + split; [done|]. by intros [post [=]].
    + destruct (ascii_dec a b) as [->|Hne].
      * rewrite IH. split.
        -- intros [post ->]. by exists post.
        -- intros [post [= ->]]. by exists post.
      * split; [done|]. intros [post [= ? _]]. done.
Qed.

Lemma includes_occursIn s sub : includes s sub = true <-> occursIn sub s.
Proof.
  unfold occursIn. induction s as [|a s IH]; cbn [includes].
  - rewrite prefix_occurs. split.
    + intros [post Hp]. by exists EmptyString, post.
    + intros (pre & post & Hp). destruct pre; [|done]. by exists post.
  - rewrite orb_true_iff, IH, prefix_occurs. split.
    + intros [[post Hp]|(pre & post & ->)].
      * by exists EmptyString, post.
      * by exists (String a pre), post.
    + intros (pre & post & Hp). destruct pre as [|b pre].
      * left. by exists post.
      * right. injection Hp as -> ->. by exists pre, post.
Qed.

End Search.

(** X13. The search test.  A course passes exactly when the search term is
    empty or the lower-cased term occurs in the lower-cased code, name or
    category of the course; in particular a course is always found by its
    own code, name or category, in any letter case. *)
Theorem searchPasses_spec (term : string) (c : Course) :
  (searchPasses term c = true
   <-> term = EmptyString
       \/ occursIn (toLowerCase term) (toLowerCase (code c))
       \/ occursIn (toLowerCase term) (toLowerCase (name c))
       \/ occursIn (toLowerCase term) (toLowerCase (category c)))
  /\ (toLowerCase term = toLowerCase (code c)
      \/ toLowerCase term = toLowerCase (name c)
      \/ toLowerCase term = toLowerCase (category c) ->
      searchPasses term c = true).
Proof.
  assert (searchPasses term c = true
          <-> term = EmptyString
              \/ occursIn (toLowerCase term) (toLowerCase (code c))
              \/ occursIn (toLowerCase term) (toLowerCase (name c))
              \/ occursIn (toLowerCase term) (toLowerCase (category c))) as Hiff.
  { unfold searchPasses, truthy_str. case_bool_decide as He; simpl.
    { split; [by left | done]. }
    rewrite <- !includes_occursIn.
    destruct (includes (toLowerCase (code c)) _),
             (includes (toLowerCase (name c)) _),
             (includes (toLowerCase (category c)) _); simpl; intuition done. }
  split; [exact Hiff|].
  assert (forall s, occursIn s s) as Hrefl.
  { intros s. exists EmptyString, EmptyString.
    change (s = String.append s EmptyString).
    induction s as [|a s IH]; [done|].
    change (String a s = String a (String.append s EmptyString)). by rewrite <- IH. }
  intros H. apply Hiff. right.
  destruct H as [-> | [-> | ->]]; auto.
Qed.

Section FilterAlgebra.

Lemma filter_filter {A} (f g : A -> bool) (l : list A) :
  List.filter f (List.filter g l) = List.filter (fun x => g x && f x) l.
Proof.
  induction l as [|x l IH]; [done|]. simpl.
  destruct (g x); simpl; [destruct (f x)|]; by rewrite IH.
Qed.

Lemma filterCourses_keeps p cs s cf tf :
  filterCourses p cs s cf tf = List.filter (keeps p s cf tf) cs.
Proof.
  unfold filterCourses. apply List.filter_ext. intros c. unfold keeps.
  destruct (searchPasses s c), (categoryPasses cf c), (typePasses tf c); simpl;
    first [done | by destruct (isTrail c && _)].
Qed.

Lemma passes_empty c :
  searchPasses "" c = true /\ categoryPasses "" c = true /\ typePasses "" c = true.
Proof. done. Qed.

End FilterAlgebra.

(** X14. Filters compose.  Filtering by the search term first and by
    category and type afterwards gives the same list as one call with all
    three, and filtering an already filtered list again changes nothing. *)
Theorem filterCourses_compose (p : CoursePlanner) (cs : list Course)
    (searchTerm categoryFilter typeFilter : string) :
  filterCourses p (filterCourses p cs searchTerm "" "") "" categoryFilter typeFilter
  = filterCourses p cs searchTerm categoryFilter typeFilter
  /\ filterCourses p (filterCourses p cs searchTerm categoryFilter typeFilter)
       searchTerm categoryFilter typeFilter
     = filterCourses p cs searchTerm categoryFilter typeFilter.
Proof.
  rewrite !filterCourses_keeps, !filter_filter. split.
  - apply List.filter_ext. intros c. unfold keeps.
    destruct (passes_empty c) as (-> & -> & ->).
    destruct (searchPasses searchTerm c), (categoryPasses categoryFilter c),
             (typePasses typeFilter c); simpl; try done;
      by destruct (negb _).
  - apply List.filter_ext. intros c. by destruct (keeps _ _ _ _ c).
Qed.

(** X15. The statistics panel after a pick.  When an available catalog
    course whose corequisites are all selected already is added, the panel
    shows one course more and the course's credits more, the remaining
    credits and remaining courses shown are not negative, and the semester
    cost shown rises by 6500 per credit of the course. *)
Theorem stats_after_pick (p : CoursePlanner) (c : Course) :
  catalogCourse p c ->
  isCourseAvailable p c = true ->
  coreqsSelected p c = true ->
  let before := updateStats p in
  let after := updateStats (addCourse p (code c)) in
  shownCredits after = shownCredits before + credits c
  /\ shownCourses after = shownCourses before + 1
  /\ 0 <= shownRemainingCredits after
  /\ 0 <= shownRemainingCourses after
  /\ shownCost after = shownCost before + 6500 * credits c
  /\ shownCost before = 6500 * sumZ (resolvedCredits p) + 9500.
Proof.
  intros Hc Hav Hco before after. subst before after.
  pose proof (addCourse_gated_alone p c Hc Hav Hco) as Hsel.
  assert (courses (addCourse p (code c)) = courses p
          /\ maxCredits (addCourse p (code c)) = maxCredits p
          /\ maxCourses (addCourse p (code c)) = maxCourses p) as (Hcs & Hmc & Hmn).
  { unfold addCourse. unfold catalogCourse in Hc. by rewrite Hc. }
  assert (getSelectedCredits (addCourse p (code c)) = getSelectedCredits p + credits c)
    as Hcred.
  { unfold getSelectedCredits. rewrite Hcs, Hsel, foldl_app. simpl.
    unfold catalogCourse in Hc. by rewrite Hc. }
  assert (getSelectedCourseCount (addCourse p (code c)) = getSelectedCourseCount p + 1)
    as Hcount.
  { unfold getSelectedCourseCount, Set_size. rewrite Hsel, length_app. simpl. lia. }
  unfold isCourseAvailable in Hav.
  destruct (Set_has _ _); [done|].
  destruct (Z.gtb_spec (getSelectedCredits p + credits c) (maxCredits p)); [done|].
  destruct (Z.gtb_spec (getSelectedCourseCount p + 1) (maxCourses p)); [done|].
  unfold updateStats. simpl. rewrite Hcred, Hcount, Hmc, Hmn.
  rewrite <- getSelectedCredits_resolved. split_and!; lia.
Qed.

(** X16. What [getSelectedElectiveTrails] counts.  For a category that
    contains "Trail", [trailCounts] has no entry when no selected course
    carries it and otherwise holds the number of selected courses carrying
    it; for any other key it has no entry.  [trailCourses] are the selected
    codes that resolve to a trail course, in selection order. *)
Theorem selected_trails_counts (p : CoursePlanner) (k : string) :
  let t := getSelectedElectiveTrails p in
  (includes k "Trail" = true ->
   trailCounts t !! k
   = if bool_decide (categoryCount p k = 0) then None else Some (categoryCount p k))
  /\ (includes k "Trail" = false -> trailCounts t !! k = None)
  /\ (forall c, c ∈ trailCourses t
                <-> includes (category c) "Trail" = true
                    /\ exists cd, cd ∈ selectedCourses p
                                  /\ findCourse (courses p) cd = Some c)
  /\ trailCourses t `sublist_of` omap (findCourse (courses p)) (selectedCourses p).
Proof.
  intros t. subst t. split_and!.
  - apply trailCounts_category.
  - intros Hk. cbn [getSelectedElectiveTrails trailCounts].
    rewrite countTrails_exact. cbn zeta.
    rewrite bool_decide_eq_true_2; [done|].
    rewrite filter_filter.
    assert (forall l : list Course,
               List.filter (fun c => isTrail c && bool_decide (category c = k)) l = [])
      as ->; [|done].
    intros l. induction l as [|c l IH]; [done|]. simpl.
    case_bool_decide as Hc; [|by rewrite andb_false_r].
    unfold isTrail. rewrite Hc, Hk. done.
  - intros c. cbn [getSelectedElectiveTrails trailCourses].
    rewrite list_elem_of_In, filter_In, <- list_elem_of_In, list_elem_of_omap.
    unfold isTrail. tauto.
  - apply filter_sublist.
Qed.

(** ** The further properties at work on the scenario catalogs *)

(** POL101 picked from the empty planner and put back. *)
Lemma add_then_remove_witness :
  catalogCourse (constructor catalogA) POL101
  /\ (code POL101 ∉ selectedCourses (constructor catalogA))
  /\ coreqs POL101 = []
  /\ selectedCourses (removeCourse (addCourse (constructor catalogA) (code POL101))
                                   (code POL101))
     = selectedCourses (constructor catalogA).
Proof.
  assert (code POL101 ∉ selectedCourses (constructor catalogA)) as Hnot
    by by_evaluation.
  split_and!; [reflexivity | done | reflexivity |].
  exact (proj1 (add_then_remove (constructor catalogA) POL101 eq_refl Hnot eq_refl)).
Defined.

(** Scenario B at the cap: 15 credits against 14 + 1, 5 codes against 8 + 1. *)
Lemma addCourse_overshoot_witness :
  catalogCourse plannerFull CSE470
  /\ isCourseAvailable plannerFull CSE470 = true
  /\ Z.of_nat (length (selectedCourses (addCourse plannerFull (code CSE470))))
     <= maxCourses plannerFull + Z.of_nat (length (coreqs CSE470)).
Proof.
  split_and!; [reflexivity | reflexivity |].
  exact (proj1 (addCourse_overshoot plannerFull CSE470 eq_refl eq_refl)).
Defined.

(** POL101 and POL104 block each other. *)
Lemma alternatives_block_both_ways_witness :
  "POL101" ∈ getAlternativeGroup "POL104"
  /\ "POL101" <> "POL104"
  /\ "POL104" ∈ getAlternativeGroup "POL101".
Proof.
  assert ("POL101" ∈ getAlternativeGroup "POL104") as Hin by by_evaluation.
  assert ("POL101" <> "POL104") as Hne by done.
  split_and!; [done | done |].
  exact (proj1 (alternatives_block_both_ways plannerPol "POL101" "POL104" Hin Hne)).
Defined.

(** Removing the only AI-trail course frees the first slot. *)
Lemma removeCourse_trailLock_witness :
  catalogCourse plannerLocked CSE440
  /\ electiveTrailSelections (removeCourse plannerLocked (code CSE440))
     = {| firstTrail := None; thirdTrail := None |}.
Proof.
  split; [reflexivity|].
  rewrite (removeCourse_trailLock plannerLocked CSE440 eq_refl). reflexivity.
Defined.


(** The same card is not one of a hidden trail. *)
Lemma available_list_respects_lock_witness :
  trailLockOk plannerLocked
  /\ createCourseCard plannerLocked CSE445 false
       ∈ availableCoursesList (renderCourses plannerLocked)
  /\ ~ trailHidden plannerLocked CSE445.
Proof.
  assert (createCourseCard plannerLocked CSE445 false
            ∈ availableCoursesList (renderCourses plannerLocked)) as Hin
    by (vm_compute; constructor).
  split_and!; [exact plannerLocked_lockOk | done |].
  exact (proj1 (available_list_respects_lock plannerLocked _ plannerLocked_lockOk Hin)).
Defined.

(** MAT120 picked first: 4 credits, one course, the cost up by 26000. *)
Lemma stats_after_pick_witness :
  catalogCourse (constructor catalogB) MAT120
  /\ isCourseAvailable (constructor catalogB) MAT120 = true
  /\ coreqsSelected (constructor catalogB) MAT120 = true
  /\ shownCredits (updateStats (addCourse (constructor catalogB) (code MAT120)))
     = shownCredits (updateStats (constructor catalogB)) + credits MAT120.
Proof.
  split_and!; [reflexivity | reflexivity | reflexivity |].
  exact (proj1 (stats_after_pick (constructor catalogB) MAT120 eq_refl eq_refl eq_refl)).
Defined.
